(** * veo3-animation-prompter: the entity store and the prompt composer

    A shallow embedding of [src/App.js]: the React state of the [App]
    component, the handlers that edit it, the suggestion client
    [suggestCharacterAction] and the template compiler
    [generateIndonesianPromptText], followed by the properties the
    specification states about them.

    Conventions.
    - A JavaScript string is a [string]; a property that may be [undefined]
      is an [option string]; a value is truthy when it is a non-empty string.
    - The form objects [humanDetails], [animal4Details], [animal2Details] and
      the [expressions] object are used as maps from a property name to a
      string: they are [gmap string string].
    - An array is a [list]; [push] appends at the end.
    - A [useState] hook [x, setX] is a field [x] of the state and a function
      [setX] on states; a handler is a function from states to states. *)

From Stdlib Require Import Ascii List Bool Arith Lia.
From Stdlib Require String.
From stdpp Require Import base option list gmap strings.

Import ListNotations.

(** ** JavaScript strings *)

(** The [String.prototype] methods the source calls.  Their Unicode tables
    play no part in what follows, so they are an interface; [asciiOps] below
    is the instance examples are run with. *)
Class JSStringOps := {
  toLowerCase : string -> string;
  trim : string -> string;
  substring : nat -> nat -> string -> string
}.

Definition lowerAscii (c : ascii) : ascii :=
  let n := nat_of_ascii c in
  if (65 <=? n) && (n <=? 90) then ascii_of_nat (n + 32) else c.

Fixpoint lowerString (s : string) : string :=
  match s with
  | EmptyString => EmptyString
  | String c s' => String (lowerAscii c) (lowerString s')
  end.

Fixpoint trimStart (s : string) : string :=
  match s with
  | EmptyString => EmptyString
  | String c s' => if Ascii.is_space c then trimStart s' else s
  end.

Fixpoint revString (acc s : string) : string :=
  match s with
  | EmptyString => acc
  | String c s' => revString (String c acc) s'
  end.

Definition trimString (s : string) : string :=
  revString EmptyString (trimStart (revString EmptyString (trimStart s))).

Definition asciiOps : JSStringOps := {|
  toLowerCase := lowerString;
  trim := trimString;
  substring := fun start len s => String.substring start len s
|}.

(** The double quote character, as a one-character string. *)
Definition dquote : string := String (ascii_of_nat 34) EmptyString.

(** [if (s)] on a string. *)
Definition truthy (s : string) : bool :=
  match s with
  | EmptyString => false
  | String _ _ => true
  end.

(** [if (o.field)] on a property that may be missing. *)
Definition truthyField (o : option string) : bool :=
  match o with
  | Some s => truthy s
  | None => false
  end.

(** [arr.filter(Boolean)] on an array of strings and [undefined]s. *)
Fixpoint filterBoolean (l : list (option string)) : list string :=
  match l with
  | [] => []
  | Some s :: l' => if truthy s then s :: filterBoolean l' else filterBoolean l'
  | None :: l' => filterBoolean l'
  end.

(** [arr.join(sep)]. *)
Definition join (sep : string) (l : list string) : string := String.concat sep l.

(** [s.includes(sub)]. *)
Fixpoint includes (s sub : string) : bool :=
  String.prefix sub s ||
  match s with
  | EmptyString => false
  | String _ s' => includes s' sub
  end.

(** ** Dropdown data *)

Record AnimalAge := { label : string; value : string }.

Record CameraMotion := { en : string; idn : string }.

Module dropdownData.

Definition animalAge : list AnimalAge :=
  [ {| label := "Bayi (0–2 tahun)"; value := "baby-like, tiny proportions, big eyes, oversized head" |};
    {| label := "Balita (3–5 tahun)"; value := "toddler-style, playful and chubby, short legs" |};
    {| label := "Anak Kecil (6–8 tahun)"; value := "childlike, energetic, round face, cheerful" |};
    {| label := "Pra-Remaja (9–12 tahun)"; value := "youthful, slightly mischievous, small and lanky" |};
    {| label := "Remaja Awal (13–15 tahun)"; value := "awkward teen, slim build, growing up phase" |};
    {| label := "Remaja (16–18 tahun)"; value := "confident teenager, casual style, expressive" |};
    {| label := "Dewasa Muda (19–30 tahun)"; value := "young adult, well-proportioned, stylish" |};
    {| label := "Dewasa (31–50 tahun)"; value := "mature character, balanced, calm expression" |};
    {| label := "Lansia (50+ tahun)"; value := "elderly, gray fur, wrinkles, gentle demeanor" |};
    {| label := "Karakter Tua & Bijak (Fabel)"; value := "ancient creature, long beard, wise eyes, walking cane" |} ].

(** [idn] is the property the source calls [id] (the Indonesian label). *)
Definition cameraMotion : list CameraMotion :=
  [ {| en := "Static Shot"; idn := "Bidikan Statis" |};
    {| en := "Pan Left"; idn := "Geser Kiri" |};
    {| en := "Pan Right"; idn := "Geser Kanan" |};
    {| en := "Tilt Up"; idn := "Miring ke Atas" |};
    {| en := "Tilt Down"; idn := "Miring ke Bawah" |};
    {| en := "Zoom In"; idn := "Perbesar" |};
    {| en := "Zoom Out"; idn := "Perkecil" |};
    {| en := "Dolly In"; idn := "Gerakan Dolly Masuk" |};
    {| en := "Dolly Out"; idn := "Gerakan Dolly Keluar" |};
    {| en := "Dolly Left"; idn := "Gerakan Dolly Kiri" |};
    {| en := "Dolly Right"; idn := "Gerakan Dolly Kanan" |};
    {| en := "Pedestal Up"; idn := "Angkat Kamera ke Atas" |};
    {| en := "Pedestal Down"; idn := "Turunkan Kamera ke Bawah" |};
    {| en := "Truck Left"; idn := "Gerakan Truk Kiri" |};
    {| en := "Truck Right"; idn := "Gerakan Truk Kanan" |};
    {| en := "Arc Left"; idn := "Busur Kiri" |};
    {| en := "Arc Right"; idn := "Busur Kanan" |};
    {| en := "Whip Pan"; idn := "Geser Cepat" |};
    {| en := "Crash Zoom"; idn := "Perbesar Mendadak" |};
    {| en := "Bullet Time"; idn := "Waktu Peluru" |};
    {| en := "FPV Drone"; idn := "Drone Sudut Pandang Orang Pertama" |};
    {| en := "Aerial Perspective"; idn := "Perspektif Udara" |};
    {| en := "Tracking Shot"; idn := "Bidikan Mengikuti" |};
    {| en := "360 Orbit"; idn := "Orbit 360 Derajat" |};
    {| en := "Crane Up"; idn := "Angkat Derek ke Atas" |};
    {| en := "Crane Down"; idn := "Turunkan Derek ke Bawah" |};
    {| en := "Dolly Zoom"; idn := "Efek Vertigo" |};
    {| en := "Robo Arm"; idn := "Lengan Robot" |};
    {| en := "Super Dolly In"; idn := "Gerakan Dolly Sangat Dekat" |};
    {| en := "Focus Change"; idn := "Perubahan Fokus" |};
    {| en := "Through Object"; idn := "Melalui Objek" |};
    {| en := "Lazy Susan"; idn := "Putaran Lambat" |};
    {| en := "Action Run"; idn := "Lari Aksi" |};
    {| en := "Handheld"; idn := "Genggam Tangan" |};
    {| en := "Dutch Angle"; idn := "Sudut Belanda" |};
    {| en := "Car Grip"; idn := "Genggam Mobil" |};
    {| en := "Hyperlapse"; idn := "Hiperlapse" |};
    {| en := "Low Shutter"; idn := "Rana Lambat" |};
    {| en := "Fisheye"; idn := "Mata Ikan" |} ].

End dropdownData.

(** ** Data model *)

(** A saved character is [{ id, name, type, details }].  [handleSaveCharacter]
    stores under [details] the form object of the selected [type], so the two
    properties together are one tagged value: the tag is [type], the payload
    the object (or, for a fantasy creature, the string) saved with it. *)
Inductive Details :=
| human (humanDetails : gmap string string)
| animal4 (animal4Details : gmap string string)
| animal2 (animal2Details : gmap string string)
| fantasy (fantasyDetails : string).

Record Character := {
  char_id : string;
  char_name : string;
  char_details : Details
}.

(** [char.type]. *)
Definition char_type (char : Character) : string :=
  match char_details char with
  | human _ => "human"
  | animal4 _ => "animal4"
  | animal2 _ => "animal2"
  | fantasy _ => "fantasy"
  end.

(** [{ type, sentence, targetCharId }]; a line is created without
    [targetCharId]. *)
Record DialogueLine := {
  line_type : string;
  line_sentence : string;
  line_targetCharId : option string
}.

(** [{ charId, action, isMain, dialogueLines }]. *)
Record CharacterAction := {
  ca_charId : string;
  ca_action : string;
  ca_isMain : bool;
  ca_dialogueLines : list DialogueLine
}.

(** [{ charId, type, sentence, targetCharId }]. *)
Record SpokenDialogue := {
  sd_charId : string;
  sd_type : string;
  sd_sentence : string;
  sd_targetCharId : string
}.

(** ** The state of [App]

    The hooks are grouped in three records: the transient character form,
    the entities the composer is specified over, and the outputs with the
    modal and loading flags. *)

Record FormState := {
  characterName : string;
  characterType : string;
  humanDetails : gmap string string;
  animal4Details : gmap string string;
  animal2Details : gmap string string;
  fantasyDetails : string
}.

Record EntityStore := {
  savedCharacters : list Character;
  selectedCharactersForActions : list string;
  characterActions : list CharacterAction;
  expressions : gmap string string;
  location : string;
  timeOfDay : string;
  cameraMotion : string;
  lighting : string;
  selectedVisualStyles : list string;
  videoMood : string;
  soundMusic : string;
  spokenDialogue : list SpokenDialogue;
  additionalDetails : string
}.

Record UiState := {
  indonesianPrompt : string;
  englishPrompt : string;
  isLoadingPrompt : bool;
  showModal : bool;
  modalMessage : string;
  isLoadingActionSuggestion : gmap string bool;
  isLoadingDialogueSuggestion : gmap nat bool
}.

Record AppState := {
  form : FormState;
  store : EntityStore;
  ui : UiState
}.

Definition emptyForm : FormState := {|
  characterName := EmptyString;
  characterType := EmptyString;
  humanDetails := ∅;
  animal4Details := ∅;
  animal2Details := ∅;
  fantasyDetails := EmptyString
|}.

Definition emptyStore : EntityStore := {|
  savedCharacters := [];
  selectedCharactersForActions := [];
  characterActions := [];
  expressions := ∅;
  location := EmptyString;
  timeOfDay := EmptyString;
  cameraMotion := EmptyString;
  lighting := EmptyString;
  selectedVisualStyles := [];
  videoMood := EmptyString;
  soundMusic := EmptyString;
  spokenDialogue := [];
  additionalDetails := EmptyString
|}.

Definition emptyUi : UiState := {|
  indonesianPrompt := EmptyString;
  englishPrompt := EmptyString;
  isLoadingPrompt := false;
  showModal := false;
  modalMessage := EmptyString;
  isLoadingActionSuggestion := ∅;
  isLoadingDialogueSuggestion := ∅
|}.

(** The initial values of the hooks. *)
Definition initialState : AppState :=
  {| form := emptyForm; store := emptyStore; ui := emptyUi |}.

(** *** Setters *)

Definition withForm (f : FormState -> FormState) (st : AppState) : AppState :=
  {| form := f (form st); store := store st; ui := ui st |}.

Definition withStore (f : EntityStore -> EntityStore) (st : AppState) : AppState :=
  {| form := form st; store := f (store st); ui := ui st |}.

Definition withUi (f : UiState -> UiState) (st : AppState) : AppState :=
  {| form := form st; store := store st; ui := f (ui st) |}.

Definition setSavedCharacters (v : list Character) : AppState -> AppState :=
  withStore (fun s => {|
    savedCharacters := v;
    selectedCharactersForActions := selectedCharactersForActions s;
    characterActions := characterActions s;
    expressions := expressions s;
    location := location s;
    timeOfDay := timeOfDay s;
    cameraMotion := cameraMotion s;
    lighting := lighting s;
    selectedVisualStyles := selectedVisualStyles s;
    videoMood := videoMood s;
    soundMusic := soundMusic s;
    spokenDialogue := spokenDialogue s;
    additionalDetails := additionalDetails s |}).

Definition setSelectedCharactersForActions (v : list string) : AppState -> AppState :=
  withStore (fun s => {|
    savedCharacters := savedCharacters s;
    selectedCharactersForActions := v;
    characterActions := characterActions s;
    expressions := expressions s;
    location := location s;
    timeOfDay := timeOfDay s;
    cameraMotion := cameraMotion s;
    lighting := lighting s;
    selectedVisualStyles := selectedVisualStyles s;
    videoMood := videoMood s;
    soundMusic := soundMusic s;
    spokenDialogue := spokenDialogue s;
    additionalDetails := additionalDetails s |}).

(** [setCharacterActions(prevActions => ...)]: the updater form. *)
Definition setCharacterActions
    (f : list CharacterAction -> list CharacterAction) : AppState -> AppState :=
  withStore (fun s => {|
    savedCharacters := savedCharacters s;
    selectedCharactersForActions := selectedCharactersForActions s;
    characterActions := f (characterActions s);
    expressions := expressions s;
    location := location s;
    timeOfDay := timeOfDay s;
    cameraMotion := cameraMotion s;
    lighting := lighting s;
    selectedVisualStyles := selectedVisualStyles s;
    videoMood := videoMood s;
    soundMusic := soundMusic s;
    spokenDialogue := spokenDialogue s;
    additionalDetails := additionalDetails s |}).

Definition setExpressions (v : gmap string string) : AppState -> AppState :=
  withStore (fun s => {|
    savedCharacters := savedCharacters s;
    selectedCharactersForActions := selectedCharactersForActions s;
    characterActions := characterActions s;
    expressions := v;
    location := location s;
    timeOfDay := timeOfDay s;
    cameraMotion := cameraMotion s;
    lighting := lighting s;
    selectedVisualStyles := selectedVisualStyles s;
    videoMood := videoMood s;
    soundMusic := soundMusic s;
    spokenDialogue := spokenDialogue s;
    additionalDetails := additionalDetails s |}).

(** [setSelectedVisualStyles(prevStyles => ...)]: the updater form. *)
Definition setSelectedVisualStyles
    (f : list string -> list string) : AppState -> AppState :=
  withStore (fun s => {|
    savedCharacters := savedCharacters s;
    selectedCharactersForActions := selectedCharactersForActions s;
    characterActions := characterActions s;
    expressions := expressions s;
    location := location s;
    timeOfDay := timeOfDay s;
    cameraMotion := cameraMotion s;
    lighting := lighting s;
    selectedVisualStyles := f (selectedVisualStyles s);
    videoMood := videoMood s;
    soundMusic := soundMusic s;
    spokenDialogue := spokenDialogue s;
    additionalDetails := additionalDetails s |}).

Definition setAnimal2Details (v : gmap string string) : AppState -> AppState :=
  withForm (fun f => {|
    characterName := characterName f;
    characterType := characterType f;
    humanDetails := humanDetails f;
    animal4Details := animal4Details f;
    animal2Details := v;
    fantasyDetails := fantasyDetails f |}).

Definition setIndonesianPrompt (v : string) : AppState -> AppState :=
  withUi (fun u => {|
    indonesianPrompt := v;
    englishPrompt := englishPrompt u;
    isLoadingPrompt := isLoadingPrompt u;
    showModal := showModal u;
    modalMessage := modalMessage u;
    isLoadingActionSuggestion := isLoadingActionSuggestion u;
    isLoadingDialogueSuggestion := isLoadingDialogueSuggestion u |}).

(** [setIsLoadingActionSuggestion(prev => ...)]: the updater form. *)
Definition setIsLoadingActionSuggestion
    (f : gmap string bool -> gmap string bool) : AppState -> AppState :=
  withUi (fun u => {|
    indonesianPrompt := indonesianPrompt u;
    englishPrompt := englishPrompt u;
    isLoadingPrompt := isLoadingPrompt u;
    showModal := showModal u;
    modalMessage := modalMessage u;
    isLoadingActionSuggestion := f (isLoadingActionSuggestion u);
    isLoadingDialogueSuggestion := isLoadingDialogueSuggestion u |}).

(** [showCustomModal(message)]: [setModalMessage(message); setShowModal(true)]. *)
Definition showCustomModal (message : string) : AppState -> AppState :=
  withUi (fun u => {|
    indonesianPrompt := indonesianPrompt u;
    englishPrompt := englishPrompt u;
    isLoadingPrompt := isLoadingPrompt u;
    showModal := true;
    modalMessage := message;
    isLoadingActionSuggestion := isLoadingActionSuggestion u;
    isLoadingDialogueSuggestion := isLoadingDialogueSuggestion u |}).

(** [savedCharacters.find(sc => sc.id === charId)]. *)
Definition findCharacter (savedCharacters : list Character) (charId : string)
    : option Character :=
  List.find (fun sc => bool_decide (char_id sc = charId)) savedCharacters.

(** ** Handlers of the entity store *)

(** The [switch (characterType)] of [handleSaveCharacter]: the details saved
    with the new character, [None] on the [default] branch. *)
Definition newCharacterDetails (f : FormState) : option Details :=
  if String.eqb (characterType f) "human" then Some (human (humanDetails f))
  else if String.eqb (characterType f) "animal4" then Some (animal4 (animal4Details f))
  else if String.eqb (characterType f) "animal2" then Some (animal2 (animal2Details f))
  else if String.eqb (characterType f) "fantasy" then Some (fantasy (fantasyDetails f))
  else None.

(** [handleSaveCharacter]; [now] is [Date.now().toString()].  After the
    character is appended every form hook is set back to its empty value. *)
Definition handleSaveCharacter (now : string) (st : AppState) : AppState :=
  if negb (truthy (characterName (form st))) then
    showCustomModal "Character Name is required to save a character." st
  else
    match newCharacterDetails (form st) with
    | None => showCustomModal "Please select a character type." st
    | Some details =>
        let newCharacter :=
          {| char_id := now;
             char_name := characterName (form st);
             char_details := details |} in
        let st1 := setSavedCharacters (savedCharacters (store st) ++ [newCharacter]) st in
        let st2 := withForm (fun _ => emptyForm) st1 in
        showCustomModal
          ("Character " +:+ dquote +:+ char_name newCharacter +:+ dquote +:+ " saved!") st2
    end.

(** [handleCharacterActionChange(charId, field, value)]; both call sites pass
    ['action'] for [field], and that is the case modelled. *)
Definition handleCharacterActionChange (charId : string) (value : string)
    : AppState -> AppState :=
  setCharacterActions (fun prevActions =>
    match list_find (fun action => ca_charId action = charId) prevActions with
    | Some (existingActionIndex, existing) =>
        <[existingActionIndex :=
            {| ca_charId := ca_charId existing;
               ca_action := value;
               ca_isMain := ca_isMain existing;
               ca_dialogueLines := ca_dialogueLines existing |}]> prevActions
    | None =>
        prevActions ++
          [ {| ca_charId := charId; ca_action := value; ca_isMain := false;
               ca_dialogueLines := [] |} ]
    end).

(** [handleToggleMainCharacter(charId)]. *)
Definition handleToggleMainCharacter (charId : string) : AppState -> AppState :=
  setCharacterActions (fun prevActions =>
    match list_find (fun action => ca_charId action = charId) prevActions with
    | Some (existingActionIndex, existing) =>
        <[existingActionIndex :=
            {| ca_charId := ca_charId existing;
               ca_action := ca_action existing;
               ca_isMain := negb (ca_isMain existing);
               ca_dialogueLines := ca_dialogueLines existing |}]> prevActions
    | None =>
        prevActions ++
          [ {| ca_charId := charId; ca_action := EmptyString; ca_isMain := true;
               ca_dialogueLines := [] |} ]
    end).

(** The [onChange] handler of the "Select Characters for Actions" checkbox of
    the character [charId]; [checked] is [e.target.checked].  Unchecking is
    the only operation of the source that removes what belongs to one
    character. *)
Definition selectedCharactersForActions_onChange
    (checked : bool) (charId : string) (st : AppState) : AppState :=
  if checked then
    setSelectedCharactersForActions
      (selectedCharactersForActions (store st) ++ [charId]) st
  else
    let st1 :=
      setSelectedCharactersForActions
        (List.filter (fun id => negb (String.eqb id charId))
           (selectedCharactersForActions (store st))) st in
    setCharacterActions
      (fun prevActions =>
         List.filter (fun action => negb (String.eqb (ca_charId action) charId))
           prevActions) st1.

(** [prevStyles.includes(style) ? prevStyles.filter(s => s !== style)
                                : [...prevStyles, style]]. *)
Definition toggleStyle (style : string) (prevStyles : list string) : list string :=
  if existsb (String.eqb style) prevStyles
  then List.filter (fun s => negb (String.eqb s style)) prevStyles
  else prevStyles ++ [style].

(** [handleVisualStyleChange(style)]. *)
Definition handleVisualStyleChange (style : string) : AppState -> AppState :=
  setSelectedVisualStyles (toggleStyle style).

(** ** The generation service *)

(** The response body as [suggestCharacterAction] reads it:
    [result.candidates[0].content.parts[0].text], every step of which may be
    missing. *)
Record Part := { text : option string }.
Record Content := { parts : option (list Part) }.
Record Candidate := { content : option Content }.
Record GenerateContentResult := { candidates : option (list Candidate) }.

(** What [fetch] resolved to: [response.ok], [response.status] as the
    template literal prints it, the body as [response.text()] returns it and
    as [response.json()] parses it ([None] when parsing throws). *)
Record Response := {
  ok : bool;
  status : string;
  responseText : string;
  responseJson : option GenerateContentResult
}.

(** The call either throws (no connectivity) or resolves to a response. *)
Inductive FetchOutcome :=
| fetchThrows
| fetchResolves (response : Response).

(** How a [try] block ends: it runs to its end (or returns), or it throws. *)
Inductive Completion :=
| Normal (st : AppState)
| Throw (st : AppState).

(** The guard [result.candidates && result.candidates.length > 0 &&
    result.candidates[0].content && result.candidates[0].content.parts &&
    result.candidates[0].content.parts.length > 0]; when it holds, the part
    [result.candidates[0].content.parts[0]] that is read next. *)
Definition firstPart (result : GenerateContentResult) : option Part :=
  match candidates result with
  | Some (candidate :: _) =>
      match content candidate with
      | Some c =>
          match parts c with
          | Some (part :: _) => Some part
          | _ => None
          end
      | None => None
      end
  | _ => None
  end.

Section Engine.
Context `{JSStringOps}.

(** The instruction sent for a character. *)
Definition suggestActionPrompt (character : Character) : string :=
  "Sarankan satu aksi singkat dan dinamis untuk karakter " +:+ char_name character +:+
  " yang berjenis " +:+ char_type character +:+
  ". Contoh: berlari, melompat, berbicara. Output hanya aksinya saja dalam bahasa Indonesia.".

(** The [try] block of [suggestCharacterAction], run on the state at the time
    the call resolves. *)
Definition suggestCharacterAction_try
    (charId : string) (character : Character) (outcome : FetchOutcome)
    (st : AppState) : Completion :=
  match outcome with
  | fetchThrows => Throw st
  | fetchResolves response =>
      if negb (ok response) then
        let errorText := responseText response in
        Normal (showCustomModal
                  ("Gagal menyarankan aksi. Status: " +:+ status response +:+
                   ". Detail: " +:+ substring 0 100 errorText +:+ "...") st)
      else
        match responseJson response with
        | None => Throw st
        | Some result =>
            match firstPart result with
            | Some part =>
                match text part with
                | None => Throw st
                | Some t =>
                    let generatedAction := trim t in
                    let st1 := handleCharacterActionChange charId generatedAction st in
                    Normal (showCustomModal
                              ("Aksi untuk " +:+ char_name character +:+ " disarankan: " +:+
                               dquote +:+ generatedAction +:+ dquote) st1)
                end
            | None =>
                Normal (showCustomModal
                          "Gagal menyarankan aksi. Respon API tidak terduga." st)
            end
        end
  end.

(** [try { ... } catch { ... } finally { ... }]: the handler of a throw, then
    the loading flag of [charId] set to [false] on every path. *)
Definition suggestCharacterAction_settle
    (charId : string) (character : Character) (outcome : FetchOutcome)
    (st : AppState) : AppState :=
  let st1 :=
    match suggestCharacterAction_try charId character outcome st with
    | Normal st' => st'
    | Throw st' =>
        showCustomModal "Terjadi kesalahan saat menyarankan aksi. Coba lagi." st'
    end in
  setIsLoadingActionSuggestion (fun prev => <[charId := false]> prev) st1.

(** [suggestCharacterAction(charId)] up to the [await]: the loading flag is
    raised and the character looked up; without a character the call ends
    here ([None]), otherwise the request is in flight for that character. *)
Definition suggestCharacterAction_begin (charId : string) (st : AppState)
    : AppState * option Character :=
  let st1 := setIsLoadingActionSuggestion (fun prev => <[charId := true]> prev) st in
  match findCharacter (savedCharacters (store st)) charId with
  | None =>
      let st2 := showCustomModal "Karakter tidak ditemukan." st1 in
      (setIsLoadingActionSuggestion (fun prev => <[charId := false]> prev) st2, None)
  | Some character => (st1, Some character)
  end.

(** One call with nothing else happening while the request is in flight. *)
Definition suggestCharacterAction
    (charId : string) (outcome : FetchOutcome) (st : AppState) : AppState :=
  match suggestCharacterAction_begin charId st with
  | (st1, None) => st1
  | (st1, Some character) => suggestCharacterAction_settle charId character outcome st1
  end.

End Engine.

(** ** The template compiler *)

(** [prompt.push(s)]. *)
Definition push (prompt : list string) (s : string) : list string := prompt ++ [s].

Section Composer.
Context `{JSStringOps}.

(** [o.field ? o.field.toLowerCase() : ''] *)
Definition lowerOrEmpty (field : option string) : string :=
  match field with
  | Some v => if truthy v then toLowerCase v else EmptyString
  | None => EmptyString
  end.

(** [if (o.field) charDesc += `${before}${o.field.toLowerCase()}`] *)
Definition appendLowerIf (charDesc : string) (field : option string) (before : string)
    : string :=
  match field with
  | Some v => if truthy v then charDesc +:+ before +:+ toLowerCase v else charDesc
  | None => charDesc
  end.

(** The body of [savedCharacters.forEach(char => ...)]: the value of
    [charDesc] when it is pushed.  The age of a two-legged animal is looked
    up under the form hook [animal2Details], as the source does, and not
    under [char.details]. *)
Definition characterDescription (animal2Details : gmap string string) (char : Character)
    : string :=
  let charDesc :=
    char_name char +:+ " adalah " +:+
    (if String.eqb (char_type char) "human" then "seorang" else "seekor") +:+ " " in
  match char_details char with
  | human details =>
      let charDesc := charDesc +:+ "manusia " +:+ lowerOrEmpty (details !! "gender") in
      let charDesc := appendLowerIf charDesc (details !! "age") " berusia " in
      let charDesc := appendLowerIf charDesc (details !! "skinColor") " dengan kulit " in
      let charDesc := appendLowerIf charDesc (details !! "bodyTypePosture") " berbadan " in
      let charDesc := appendLowerIf charDesc (details !! "clothingAccessories") " mengenakan " in
      let charDesc := appendLowerIf charDesc (details !! "additionalDetail") ", " in
      charDesc
  | animal4 details =>
      let charDesc := charDesc +:+ "hewan " +:+ lowerOrEmpty (details !! "animalType") in
      let charDesc := appendLowerIf charDesc (details !! "clothingAccessories") " mengenakan " in
      charDesc
  | animal2 details =>
      let charDesc :=
        charDesc +:+ "hewan " +:+ lowerOrEmpty (details !! "animalType") +:+
        " berjalan dengan dua kaki" in
      let charDesc := appendLowerIf charDesc (details !! "gender") " berjenis kelamin " in
      let selectedAnimalAge :=
        List.find (fun opt => bool_decide (Some (value opt) = animal2Details !! "age"))
          dropdownData.animalAge in
      let charDesc :=
        match selectedAnimalAge with
        | Some opt => charDesc +:+ " (" +:+ value opt +:+ ")"
        | None => charDesc
        end in
      let charDesc := appendLowerIf charDesc (details !! "bodyShapePosture") " berbadan " in
      let charDesc := appendLowerIf charDesc (details !! "furColors") " dengan bulu " in
      let charDesc := appendLowerIf charDesc (details !! "furCharacteristic") " yang " in
      let charDesc := appendLowerIf charDesc (details !! "clothingAccessories") " mengenakan " in
      charDesc
  | fantasy details =>
      charDesc +:+ "makhluk fantasi. " +:+
      (if truthy details then toLowerCase details else EmptyString)
  end.

(** [characterActions.filter(ca => ca.isMain)
      .map(ca => savedCharacters.find(sc => sc.id === ca.charId)?.name)
      .filter(Boolean)] *)
Definition mainCharacters (s : EntityStore) : list string :=
  filterBoolean
    (map (fun ca => char_name <$> findCharacter (savedCharacters s) (ca_charId ca))
       (List.filter ca_isMain (characterActions s))).

(** The body of [ca.dialogueLines.forEach(line => ...)]. *)
Definition pushDialogueLine (character : Character) (prompt : list string)
    (line : DialogueLine) : list string :=
  if truthy (line_sentence line) then
    push prompt
      (char_name character +:+ " " +:+
       (if String.eqb (line_type line) "Ask a question" then "bertanya" else "menjawab") +:+
       ": " +:+ dquote +:+ line_sentence line +:+ dquote)
  else prompt.

(** The body of [characterActions.forEach(ca => ...)], with
    [expressions[ca.charId]] read among the own properties of the object;
    [pushCharacterAction_run] below has the read on the plain object, where
    it can throw. *)
Definition pushCharacterAction (s : EntityStore) (prompt : list string)
    (ca : CharacterAction) : list string :=
  match findCharacter (savedCharacters s) (ca_charId ca) with
  | Some character =>
      let actionDesc := char_name character +:+ " sedang " +:+ toLowerCase (ca_action ca) in
      let charExpression := expressions s !! ca_charId ca in
      let actionDesc := appendLowerIf actionDesc charExpression " dengan ekspresi " in
      let prompt := push prompt (actionDesc +:+ ".") in
      fold_left (pushDialogueLine character) (ca_dialogueLines ca) prompt
  | None => prompt
  end.

(** The body of [spokenDialogue.forEach(sd => ...)]. *)
Definition pushSpokenDialogue (s : EntityStore) (prompt : list string)
    (sd : SpokenDialogue) : list string :=
  match findCharacter (savedCharacters s) (sd_charId sd) with
  | Some speaker =>
      if truthy (sd_sentence sd) then
        let dialogueText := char_name speaker +:+ " " in
        let dialogueText :=
          if String.eqb (sd_type sd) "Ask a question" then
            let dialogueText := dialogueText +:+ "bertanya" in
            let dialogueText :=
              match findCharacter (savedCharacters s) (sd_targetCharId sd) with
              | Some targetChar => dialogueText +:+ " kepada " +:+ char_name targetChar
              | None => dialogueText
              end in
            dialogueText +:+ ": " +:+ dquote +:+ sd_sentence sd +:+ dquote
          else if String.eqb (sd_type sd) "Give an answer" then
            let dialogueText := dialogueText +:+ "menjawab" in
            let dialogueText :=
              match findCharacter (savedCharacters s) (sd_targetCharId sd) with
              | Some targetChar => dialogueText +:+ " kepada " +:+ char_name targetChar
              | None => dialogueText
              end in
            dialogueText +:+ ": " +:+ dquote +:+ sd_sentence sd +:+ dquote
          else if String.eqb (sd_type sd) "Berbicara ke Audiens" then
            dialogueText +:+ "berbicara kepada audiens: " +:+
            dquote +:+ sd_sentence sd +:+ dquote
          else dialogueText in
        push prompt dialogueText
      else prompt
  | None => prompt
  end.

(** The block [if (savedCharacters.length > 0) { ... }]: the main-character
    sentence, then one sentence per saved character. *)
Definition pushCharacters (st : AppState) (prompt : list string) : list string :=
  let s := store st in
  if 0 <? length (savedCharacters s) then
    let prompt :=
      if 0 <? length (mainCharacters s) then
        push prompt ("Karakter utama adalah " +:+ join " dan " (mainCharacters s) +:+ ".")
      else prompt in
    fold_left
      (fun prompt char =>
         push prompt (characterDescription (animal2Details (form st)) char +:+ "."))
      (savedCharacters s) prompt
  else prompt.

(** The blocks from [// Location] to [// Sound / Music]. *)
Definition pushSceneAttributes (s : EntityStore) (prompt : list string) : list string :=
  (* Location *)
  let prompt :=
    if truthy (location s)
    then push prompt ("Adegan berlangsung di " +:+ toLowerCase (location s) +:+ ".")
    else prompt in
  (* Time of Day *)
  let prompt :=
    if truthy (timeOfDay s)
    then push prompt ("Waktu kejadian adalah " +:+ toLowerCase (timeOfDay s) +:+ ".")
    else prompt in
  (* Camera Motion *)
  let prompt :=
    if truthy (cameraMotion s) then
      match List.find (fun m => String.eqb (en m) (cameraMotion s))
              dropdownData.cameraMotion with
      | Some motion => push prompt ("Gerakan kamera: " +:+ idn motion +:+ ".")
      | None => prompt
      end
    else prompt in
  (* Lighting *)
  let prompt :=
    if truthy (lighting s)
    then push prompt ("Pencahayaan: " +:+ toLowerCase (lighting s) +:+ ".")
    else prompt in
  (* Visual/Video Style *)
  let prompt :=
    if 0 <? length (selectedVisualStyles s) then
      push prompt
        ("Gaya visual video adalah " +:+
         join ", " (map toLowerCase (selectedVisualStyles s)) +:+ ".")
    else prompt in
  (* Video Mood / Atmosphere *)
  let prompt :=
    if truthy (videoMood s)
    then push prompt ("Suasana video: " +:+ toLowerCase (videoMood s) +:+ ".")
    else prompt in
  (* Sound / Music *)
  let prompt :=
    if truthy (soundMusic s)
    then push prompt ("Latar belakang musik/suara: " +:+ toLowerCase (soundMusic s) +:+ ".")
    else prompt in
  prompt.

(** The block [// Additional Details]. *)
Definition pushAdditionalDetails (s : EntityStore) (prompt : list string) : list string :=
  if truthy (additionalDetails s)
  then push prompt ("Detail tambahan: " +:+ additionalDetails s +:+ ".")
  else prompt.

(** The array [prompt] of [generateIndonesianPromptText] when it is joined:
    the blocks of the function in the order they are written. *)
Definition promptSentences (st : AppState) : list string :=
  let s := store st in
  let prompt := [] in
  let prompt := pushCharacters st prompt in
  let prompt := fold_left (pushCharacterAction s) (characterActions s) prompt in
  let prompt := pushSceneAttributes s prompt in
  let prompt := fold_left (pushSpokenDialogue s) (spokenDialogue s) prompt in
  let prompt := pushAdditionalDetails s prompt in
  prompt.

(** The string handed to [setIndonesianPrompt]: [prompt.join(' ')]. *)
Definition compose (st : AppState) : string := join " " (promptSentences st).

(** [generateIndonesianPromptText]. *)
Definition generateIndonesianPromptText (st : AppState) : AppState :=
  setIndonesianPrompt (compose st) st.

End Composer.

(** ** The specification's vocabulary

    The definitions of this part follow the wording of the specification;
    the theorems compare them with the functions above. *)

Definition setSpokenDialogue (v : list SpokenDialogue) : AppState -> AppState :=
  withStore (fun s => {|
    savedCharacters := savedCharacters s;
    selectedCharactersForActions := selectedCharactersForActions s;
    characterActions := characterActions s;
    expressions := expressions s;
    location := location s;
    timeOfDay := timeOfDay s;
    cameraMotion := cameraMotion s;
    lighting := lighting s;
    selectedVisualStyles := selectedVisualStyles s;
    videoMood := videoMood s;
    soundMusic := soundMusic s;
    spokenDialogue := v;
    additionalDetails := additionalDetails s |}).

(** "A committed Character": one of the saved characters, whose name
    [handleSaveCharacter] required to be non-empty. *)
Definition committedNames (s : EntityStore) : Prop :=
  Forall (fun char => char_name char <> EmptyString) (savedCharacters s).

(** "The CharacterActions with isMain = true resolving to committed
    characters", by the names of those characters. *)
Definition mainCharacterNames (s : EntityStore) : list string :=
  omap (fun ca =>
          if ca_isMain ca
          then char_name <$> findCharacter (savedCharacters s) (ca_charId ca)
          else None)
       (characterActions s).



(** An embedded line of type AddressAudience read as one of type Answer. *)
Definition asAnswer (line : DialogueLine) : DialogueLine :=
  if String.eqb (line_type line) "Berbicara ke Audiens"
  then {| line_type := "Give an answer";
          line_sentence := line_sentence line;
          line_targetCharId := line_targetCharId line |}
  else line.

(** The snapshot with every embedded AddressAudience line read as Answer. *)
Definition audienceAsAnswer (st : AppState) : AppState :=
  setCharacterActions
    (map (fun ca =>
            {| ca_charId := ca_charId ca;
               ca_action := ca_action ca;
               ca_isMain := ca_isMain ca;
               ca_dialogueLines := map asAnswer (ca_dialogueLines ca) |})) st.

(** "None of the three recognized values". *)
Definition unrecognizedType (type : string) : Prop :=
  type <> "Ask a question" /\ type <> "Give an answer" /\ type <> "Berbicara ke Audiens".

(** The generation service's success shape
    [{ candidates: [ { content: { parts: [ { text } ] } } ] }] under a success
    status: the text of the result; [None] is "any other shape, or a
    non-success transport status". *)
Definition serviceResult (outcome : FetchOutcome) : option string :=
  match outcome with
  | fetchThrows => None
  | fetchResolves response =>
      if ok response then
        result ← responseJson response;
        cs ← candidates result;
        candidate ← head cs;
        c ← content candidate;
        ps ← parts c;
        part ← head ps;
        text part
      else None
  end.

(** The CharacterAction entry of a character: the first one with its id. *)
Definition actionOf (s : EntityStore) (charId : string) : option CharacterAction :=
  snd <$> list_find (fun action => ca_charId action = charId) (characterActions s).

Section Sentences.
Context `{JSStringOps}.



(** The sentences of each composition step, on their own. *)
Definition mainCharacterSentences (s : EntityStore) : list string :=
  match mainCharacterNames s with
  | [] => []
  | names => ["Karakter utama adalah " +:+ join " dan " names +:+ "."]
  end.

Definition introductionSentences (st : AppState) : list string :=
  map (fun char => characterDescription (animal2Details (form st)) char +:+ ".")
      (savedCharacters (store st)).

Definition actionSentences (s : EntityStore) (actions : list CharacterAction)
    : list string :=
  fold_left (pushCharacterAction s) actions [].

Definition sceneSentences (s : EntityStore) : list string := pushSceneAttributes s [].

Definition spokenSentences (s : EntityStore) (dialogue : list SpokenDialogue)
    : list string :=
  fold_left (pushSpokenDialogue s) dialogue [].

Definition additionalSentences (s : EntityStore) : list string :=
  pushAdditionalDetails s [].

End Sentences.

(** ** Scenarios *)

Definition toddler : string := "toddler-style, playful and chubby, short legs".

(** The form filled in for the two-legged bear Bruno of the toddler bracket. *)
Definition bruno_form : AppState :=
  withForm (fun _ => {|
    characterName := "Bruno";
    characterType := "animal2";
    humanDetails := ∅;
    animal4Details := ∅;
    animal2Details := <["age" := toddler]> (<["animalType" := "Bear"]> ∅);
    fantasyDetails := EmptyString |}) initialState.

(** Bruno saved. *)
Definition bruno_saved : AppState := handleSaveCharacter "1700000000000" bruno_form.

(** Bruno saved, and the age select of the form set again for a next
    character. *)
Definition bruno_saved_form_edited : AppState :=
  setAnimal2Details (<["age" := toddler]> ∅) bruno_saved.

Definition aria : Character :=
  {| char_id := "1";
     char_name := "Aria";
     char_details := human (<["age" := "25 tahun"]> (<["gender" := "Female"]> ∅)) |}.

Definition budi : Character :=
  {| char_id := "2";
     char_name := "Budi";
     char_details := human (<["gender" := "Male"]> ∅) |}.

(** Aria alone, nothing else set. *)
Definition aria_alone : AppState := setSavedCharacters [aria] initialState.

(** Aria and Budi, Aria marked as main character. *)
Definition aria_main : AppState :=
  handleToggleMainCharacter "1" (setSavedCharacters [aria; budi] initialState).

(** Aria selected for actions, running, and happy. *)
Definition aria_running : AppState :=
  setExpressions (<["1" := "Happy"]> ∅)
    (handleCharacterActionChange "1" "berlari"
       (selectedCharactersForActions_onChange true "1" aria_alone)).

(** Aria with one spoken dialogue entry whose type was never selected. *)
Definition aria_speaks_untyped : AppState :=
  setSpokenDialogue
    [ {| sd_charId := "1"; sd_type := EmptyString; sd_sentence := "Halo";
         sd_targetCharId := EmptyString |} ] aria_alone.

Definition okResponse (t : string) : FetchOutcome :=
  fetchResolves
    {| ok := true; status := "200"; responseText := EmptyString;
       responseJson :=
         Some {| candidates :=
                   Some [ {| content := Some {| parts := Some [ {| text := Some t |} ] |} |} ] |} |}.

Definition serverError : FetchOutcome :=
  fetchResolves
    {| ok := false; status := "500"; responseText := "Internal error";
       responseJson := None |}.

(** ** The rest of the component

    The handlers, the draft snapshot and the two other clients of the
    generation service, on the same state. *)

Definition setEnglishPrompt (v : string) : AppState -> AppState :=
  withUi (fun u => {|
    indonesianPrompt := indonesianPrompt u;
    englishPrompt := v;
    isLoadingPrompt := isLoadingPrompt u;
    showModal := showModal u;
    modalMessage := modalMessage u;
    isLoadingActionSuggestion := isLoadingActionSuggestion u;
    isLoadingDialogueSuggestion := isLoadingDialogueSuggestion u |}).

Definition setIsLoadingPrompt (v : bool) : AppState -> AppState :=
  withUi (fun u => {|
    indonesianPrompt := indonesianPrompt u;
    englishPrompt := englishPrompt u;
    isLoadingPrompt := v;
    showModal := showModal u;
    modalMessage := modalMessage u;
    isLoadingActionSuggestion := isLoadingActionSuggestion u;
    isLoadingDialogueSuggestion := isLoadingDialogueSuggestion u |}).

(** [setIsLoadingDialogueSuggestion(prev => ...)]: the updater form. *)
Definition setIsLoadingDialogueSuggestion
    (f : gmap nat bool -> gmap nat bool) : AppState -> AppState :=
  withUi (fun u => {|
    indonesianPrompt := indonesianPrompt u;
    englishPrompt := englishPrompt u;
    isLoadingPrompt := isLoadingPrompt u;
    showModal := showModal u;
    modalMessage := modalMessage u;
    isLoadingActionSuggestion := isLoadingActionSuggestion u;
    isLoadingDialogueSuggestion := f (isLoadingDialogueSuggestion u) |}).

(** [resetForm]: every form, entity and output hook back to its initial
    value; the loading flags are not among the hooks it sets. *)
Definition resetForm (st : AppState) : AppState :=
  showCustomModal "Form reset successfully!"
    {| form := emptyForm;
       store := emptyStore;
       ui := {| indonesianPrompt := EmptyString;
                englishPrompt := EmptyString;
                isLoadingPrompt := isLoadingPrompt (ui st);
                showModal := showModal (ui st);
                modalMessage := modalMessage (ui st);
                isLoadingActionSuggestion := isLoadingActionSuggestion (ui st);
                isLoadingDialogueSuggestion := isLoadingDialogueSuggestion (ui st) |} |}.

(** *** Drafts *)

(** A draft document as [loadPromptDraft] reads it: any property may be
    missing. *)
Record Draft := {
  draft_characterName : option string;
  draft_characterType : option string;
  draft_humanDetails : option (gmap string string);
  draft_animal4Details : option (gmap string string);
  draft_animal2Details : option (gmap string string);
  draft_fantasyDetails : option string;
  draft_savedCharacters : option (list Character);
  draft_selectedCharactersForActions : option (list string);
  draft_characterActions : option (list CharacterAction);
  draft_expressions : option (gmap string string);
  draft_location : option string;
  draft_timeOfDay : option string;
  draft_cameraMotion : option string;
  draft_lighting : option string;
  draft_selectedVisualStyles : option (list string);
  draft_videoMood : option string;
  draft_soundMusic : option string;
  draft_spokenDialogue : option (list SpokenDialogue);
  draft_additionalDetails : option string;
  draft_indonesianPrompt : option string;
  draft_englishPrompt : option string
}.

(** The object [promptData] that [savePromptDraft] writes, without its
    server timestamp. *)
Definition promptData (st : AppState) : Draft := {|
  draft_characterName := Some (characterName (form st));
  draft_characterType := Some (characterType (form st));
  draft_humanDetails := Some (humanDetails (form st));
  draft_animal4Details := Some (animal4Details (form st));
  draft_animal2Details := Some (animal2Details (form st));
  draft_fantasyDetails := Some (fantasyDetails (form st));
  draft_savedCharacters := Some (savedCharacters (store st));
  draft_selectedCharactersForActions := Some (selectedCharactersForActions (store st));
  draft_characterActions := Some (characterActions (store st));
  draft_expressions := Some (expressions (store st));
  draft_location := Some (location (store st));
  draft_timeOfDay := Some (timeOfDay (store st));
  draft_cameraMotion := Some (cameraMotion (store st));
  draft_lighting := Some (lighting (store st));
  draft_selectedVisualStyles := Some (selectedVisualStyles (store st));
  draft_videoMood := Some (videoMood (store st));
  draft_soundMusic := Some (soundMusic (store st));
  draft_spokenDialogue := Some (spokenDialogue (store st));
  draft_additionalDetails := Some (additionalDetails (store st));
  draft_indonesianPrompt := Some (indonesianPrompt (ui st));
  draft_englishPrompt := Some (englishPrompt (ui st))
|}.

(** [loadPromptDraft(draft)]: each hook is set to [draft.x || fallback]. *)
Definition loadPromptDraft (draft : Draft) (st : AppState) : AppState :=
  showCustomModal "Draft loaded successfully!"
    {| form := {|
         characterName := default EmptyString (draft_characterName draft);
         characterType := default EmptyString (draft_characterType draft);
         humanDetails := default ∅ (draft_humanDetails draft);
         animal4Details := default ∅ (draft_animal4Details draft);
         animal2Details := default ∅ (draft_animal2Details draft);
         fantasyDetails := default EmptyString (draft_fantasyDetails draft) |};
       store := {|
         savedCharacters := default [] (draft_savedCharacters draft);
         selectedCharactersForActions :=
           default [] (draft_selectedCharactersForActions draft);
         characterActions := default [] (draft_characterActions draft);
         expressions := default ∅ (draft_expressions draft);
         location := default EmptyString (draft_location draft);
         timeOfDay := default EmptyString (draft_timeOfDay draft);
         cameraMotion := default EmptyString (draft_cameraMotion draft);
         lighting := default EmptyString (draft_lighting draft);
         selectedVisualStyles := default [] (draft_selectedVisualStyles draft);
         videoMood := default EmptyString (draft_videoMood draft);
         soundMusic := default EmptyString (draft_soundMusic draft);
         spokenDialogue := default [] (draft_spokenDialogue draft);
         additionalDetails := default EmptyString (draft_additionalDetails draft) |};
       ui := {|
         indonesianPrompt := default EmptyString (draft_indonesianPrompt draft);
         englishPrompt := default EmptyString (draft_englishPrompt draft);
         isLoadingPrompt := isLoadingPrompt (ui st);
         showModal := showModal (ui st);
         modalMessage := modalMessage (ui st);
         isLoadingActionSuggestion := isLoadingActionSuggestion (ui st);
         isLoadingDialogueSuggestion := isLoadingDialogueSuggestion (ui st) |} |}.

(** *** Spoken dialogue *)

(** The [field] argument of [handleSpokenDialogueChange]: the four
    properties of an entry, all strings. *)
Inductive SpokenField :=
| field_charId
| field_type
| field_sentence
| field_targetCharId.

(** [entry[field] = value]. *)
Definition setSpokenField (field : SpokenField) (value : string) (sd : SpokenDialogue)
    : SpokenDialogue :=
  match field with
  | field_charId =>
      {| sd_charId := value; sd_type := sd_type sd; sd_sentence := sd_sentence sd;
         sd_targetCharId := sd_targetCharId sd |}
  | field_type =>
      {| sd_charId := sd_charId sd; sd_type := value; sd_sentence := sd_sentence sd;
         sd_targetCharId := sd_targetCharId sd |}
  | field_sentence =>
      {| sd_charId := sd_charId sd; sd_type := sd_type sd; sd_sentence := value;
         sd_targetCharId := sd_targetCharId sd |}
  | field_targetCharId =>
      {| sd_charId := sd_charId sd; sd_type := sd_type sd; sd_sentence := sd_sentence sd;
         sd_targetCharId := value |}
  end.

(** [handleAddSpokenDialogue]. *)
Definition handleAddSpokenDialogue (st : AppState) : AppState :=
  setSpokenDialogue
    (spokenDialogue (store st) ++
       [ {| sd_charId := EmptyString; sd_type := EmptyString;
            sd_sentence := EmptyString; sd_targetCharId := EmptyString |} ]) st.

(** [handleSpokenDialogueChange(index, field, value)].  Past the end of the
    array [updatedDialogue[index]] is [undefined] and the assignment throws
    before [setSpokenDialogue] is reached: the state stays as it is. *)
Definition handleSpokenDialogueChange
    (index : nat) (field : SpokenField) (value : string) (st : AppState) : AppState :=
  match spokenDialogue (store st) !! index with
  | Some entry =>
      setSpokenDialogue
        (<[index := setSpokenField field value entry]> (spokenDialogue (store st))) st
  | None => st
  end.

(** [handleRemoveSpokenDialogue(index)]: [splice(index, 1)] on a copy. *)
Definition handleRemoveSpokenDialogue (index : nat) (st : AppState) : AppState :=
  setSpokenDialogue (delete index (spokenDialogue (store st))) st.

(** *** Suggesting a dialogue sentence *)

Definition isQuote (c : ascii) : bool := Nat.eqb (nat_of_ascii c) 34.

(** The second half of the pattern: a double quote that ends the string. *)
Fixpoint stripTrailingQuote (s : string) : string :=
  match s with
  | EmptyString => EmptyString
  | String c EmptyString => if isQuote c then EmptyString else s
  | String c s' => String c (stripTrailingQuote s')
  end.

(** The [replace] of [suggestDialogueSentence], whose pattern is a double
    quote at the start of the string or a double quote at its end, with the
    [g] flag: a double quote that starts the string and one that ends it are
    removed. *)
Definition stripQuotes (s : string) : string :=
  match s with
  | EmptyString => EmptyString
  | String c s' => if isQuote c then stripTrailingQuote s' else stripTrailingQuote s
  end.

(** Where [suggestDialogueSentence] stands when it awaits the service. *)
Inductive DialogueRequest :=
| requestRejected (st : AppState)
| requestNotSent (st : AppState)
| requestInFlight (st : AppState) (character : Character).

(** [suggestDialogueSentence(dialogueIndex)] up to the [await].  For an index
    past the end [dialogue] is [undefined]: the callback of
    [savedCharacters.find] throws on [dialogue.charId] as soon as it is called,
    outside the [try], and the call is rejected with the loading flag still
    raised; with no saved character the callback is never called, [find]
    gives [undefined] and the guard applies.  Without a speaker or a type no
    request is sent. *)
Definition suggestDialogueSentence_begin (dialogueIndex : nat) (st : AppState)
    : DialogueRequest :=
  let st1 :=
    setIsLoadingDialogueSuggestion (fun prev => <[dialogueIndex := true]> prev) st in
  match spokenDialogue (store st) !! dialogueIndex with
  | None =>
      match savedCharacters (store st) with
      | _ :: _ => requestRejected st1
      | [] =>
          let st2 :=
            showCustomModal "Pilih karakter dan jenis dialog terlebih dahulu." st1 in
          requestNotSent
            (setIsLoadingDialogueSuggestion
               (fun prev => <[dialogueIndex := false]> prev) st2)
      end
  | Some dialogue =>
      match findCharacter (savedCharacters (store st)) (sd_charId dialogue) with
      | Some character =>
          if truthy (sd_type dialogue) then requestInFlight st1 character
          else
            let st2 :=
              showCustomModal "Pilih karakter dan jenis dialog terlebih dahulu." st1 in
            requestNotSent
              (setIsLoadingDialogueSuggestion
                 (fun prev => <[dialogueIndex := false]> prev) st2)
      | None =>
          let st2 :=
            showCustomModal "Pilih karakter dan jenis dialog terlebih dahulu." st1 in
          requestNotSent
            (setIsLoadingDialogueSuggestion
               (fun prev => <[dialogueIndex := false]> prev) st2)
      end
  end.

Section DialogueSuggestion.
Context `{JSStringOps}.

(** The [try] block of [suggestDialogueSentence]. *)
Definition suggestDialogueSentence_try
    (dialogueIndex : nat) (character : Character) (outcome : FetchOutcome)
    (st : AppState) : Completion :=
  match outcome with
  | fetchThrows => Throw st
  | fetchResolves response =>
      if negb (ok response) then
        let errorText := responseText response in
        Normal (showCustomModal
                  ("Gagal menyarankan dialog. Status: " +:+ status response +:+
                   ". Detail: " +:+ substring 0 100 errorText +:+ "...") st)
      else
        match responseJson response with
        | None => Throw st
        | Some result =>
            match firstPart result with
            | Some part =>
                match text part with
                | None => Throw st
                | Some t =>
                    let generatedSentence := stripQuotes (trim t) in
                    let st1 :=
                      handleSpokenDialogueChange dialogueIndex field_sentence
                        generatedSentence st in
                    Normal (showCustomModal
                              ("Kalimat dialog disarankan untuk " +:+ char_name character +:+
                               ": " +:+ dquote +:+ generatedSentence +:+ dquote) st1)
                end
            | None =>
                Normal (showCustomModal
                          "Gagal menyarankan dialog. Respon API tidak terduga." st)
            end
        end
  end.

(** One call of [suggestDialogueSentence] with nothing else happening while
    the request is in flight, so that the array the handler of the issuing
    render copies is the current one. *)
Definition suggestDialogueSentence
    (dialogueIndex : nat) (outcome : FetchOutcome) (st : AppState) : DialogueRequest :=
  match suggestDialogueSentence_begin dialogueIndex st with
  | requestInFlight st1 character =>
      let st2 :=
        match suggestDialogueSentence_try dialogueIndex character outcome st1 with
        | Normal st' => st'
        | Throw st' =>
            showCustomModal "Terjadi kesalahan saat menyarankan dialog. Coba lagi." st'
        end in
      requestInFlight
        (setIsLoadingDialogueSuggestion
           (fun prev => <[dialogueIndex := false]> prev) st2)
        character
  | ended => ended
  end.

End DialogueSuggestion.

(** *** Refining the prompt *)

(** What [maximizeEnglishPrompt] leaves behind: a state, or a state whose
    [englishPrompt] hook was set to [undefined] (the result had a first part
    without [text]), which the string field cannot show. *)
Inductive Refinement :=
| refined (st : AppState)
| refinedUndefined (st : AppState).

Section PromptRefinement.
Context `{JSStringOps}.

(** The [try] block of [maximizeEnglishPrompt]; [None] is a throw. *)
Definition maximizeEnglishPrompt_try (outcome : FetchOutcome) (st : AppState)
    : option Refinement :=
  match outcome with
  | fetchThrows => None
  | fetchResolves response =>
      if negb (ok response) then
        let errorText := responseText response in
        Some (refined
                (showCustomModal
                   ("Gagal mengoptimalkan prompt. Status: " +:+ status response +:+
                    ". Detail: " +:+ substring 0 100 errorText +:+ "...") st))
      else
        match responseJson response with
        | None => None
        | Some result =>
            match firstPart result with
            | Some part =>
                match text part with
                | Some t => Some (refined (setEnglishPrompt t st))
                | None => Some (refinedUndefined st)
                end
            | None =>
                Some (refined
                        (showCustomModal
                           "Failed to generate English prompt. Unexpected API response." st))
            end
        end
  end.

(** [maximizeEnglishPrompt]. *)
Definition maximizeEnglishPrompt (outcome : FetchOutcome) (st : AppState) : Refinement :=
  if negb (truthy (indonesianPrompt (ui st))) then
    refined (showCustomModal "Generate the Indonesian prompt first." st)
  else
    let st1 := setIsLoadingPrompt true st in
    match maximizeEnglishPrompt_try outcome st1 with
    | Some (refined st2) => refined (setIsLoadingPrompt false st2)
    | Some (refinedUndefined st2) => refinedUndefined (setIsLoadingPrompt false st2)
    | None =>
        refined (setIsLoadingPrompt false
                   (showCustomModal "Error optimizing prompt. Please try again." st1))
    end.

End PromptRefinement.

(** The hooks behind a refinement. *)
Definition refinedState (r : Refinement) : AppState :=
  match r with
  | refined st => st
  | refinedUndefined st => st
  end.

(** *** More vocabulary *)

(** The snapshot without the embedded lines and the spoken entries whose
    sentence is empty. *)
Definition withoutEmptySentences (st : AppState) : AppState :=
  setSpokenDialogue
    (List.filter (fun sd => truthy (sd_sentence sd)) (spokenDialogue (store st)))
    (setCharacterActions
       (map (fun ca =>
               {| ca_charId := ca_charId ca;
                  ca_action := ca_action ca;
                  ca_isMain := ca_isMain ca;
                  ca_dialogueLines :=
                    List.filter (fun line => truthy (line_sentence line))
                      (ca_dialogueLines ca) |})) st).

(** At most one CharacterAction per character. *)
Definition keyedActions (s : EntityStore) : Prop :=
  NoDup (map ca_charId (characterActions s)).

(** The properties of a Human that the composer reads. *)
Definition humanFields : list string :=
  ["gender"; "age"; "skinColor"; "bodyTypePosture"; "clothingAccessories";
   "additionalDetail"].

(** The properties of a four-legged animal that the composer reads. *)
Definition animal4Fields : list string := ["animalType"; "clothingAccessories"].

(** The properties of a two-legged animal that the composer reads under the
    saved details. *)
Definition animal2Fields : list string :=
  ["animalType"; "gender"; "bodyShapePosture"; "furColors"; "furCharacteristic";
   "clothingAccessories"].

Section SceneVocabulary.
Context `{JSStringOps}.

(** A sentence for a scene attribute that is set. *)
Definition attributeSentence (before : string) (attribute : string) : list string :=
  if truthy attribute then [before +:+ toLowerCase attribute +:+ "."] else [].

(** The scene step, attribute by attribute, in the order location, time of
    day, camera motion, lighting, visual styles, mood, sound. *)
Definition sceneParts (s : EntityStore) : list (list string) :=
  [ attributeSentence "Adegan berlangsung di " (location s);
    attributeSentence "Waktu kejadian adalah " (timeOfDay s);
    match List.find (fun m => String.eqb (en m) (cameraMotion s))
            dropdownData.cameraMotion with
    | Some motion =>
        if truthy (cameraMotion s) then ["Gerakan kamera: " +:+ idn motion +:+ "."] else []
    | None => []
    end;
    attributeSentence "Pencahayaan: " (lighting s);
    match selectedVisualStyles s with
    | [] => []
    | styles => ["Gaya visual video adalah " +:+ join ", " (map toLowerCase styles) +:+ "."]
    end;
    attributeSentence "Suasana video: " (videoMood s);
    attributeSentence "Latar belakang musik/suara: " (soundMusic s) ].

(** The sentence of a spoken entry of type Question or Answer, by its verb. *)
Definition addressedLine (s : EntityStore) (verb : string) (speaker : Character)
    (sd : SpokenDialogue) : string :=
  char_name speaker +:+ " " +:+ verb +:+
  match findCharacter (savedCharacters s) (sd_targetCharId sd) with
  | Some targetChar => " kepada " +:+ char_name targetChar
  | None => EmptyString
  end +:+
  ": " +:+ dquote +:+ sd_sentence sd +:+ dquote.

End SceneVocabulary.

(** *** Sessions *)

(** What a user does to the form and the entities. *)
Inductive Event :=
| EditForm (f : FormState)
| SaveCharacter (now : string)
| SelectForActions (checked : bool) (charId : string)
| ChangeAction (charId value : string)
| ToggleMainCharacter (charId : string)
| SetExpression (charId value : string)
| ToggleVisualStyle (style : string)
| AddSpokenDialogue
| ChangeSpokenDialogue (index : nat) (field : SpokenField) (value : string)
| RemoveSpokenDialogue (index : nat)
| ResetForm.

(** The handler of each event; [EditForm f] stands for the form setters
    ([setCharacterName], [setHumanDetails], ...) and carries the form they
    leave, [SetExpression] for the [onChange] of an expression select,
    [setExpressions({ ...expressions, [char.id]: e.target.value })]. *)
Definition handle (st : AppState) (e : Event) : AppState :=
  match e with
  | EditForm f => withForm (fun _ => f) st
  | SaveCharacter now => handleSaveCharacter now st
  | SelectForActions checked charId =>
      selectedCharactersForActions_onChange checked charId st
  | ChangeAction charId value => handleCharacterActionChange charId value st
  | ToggleMainCharacter charId => handleToggleMainCharacter charId st
  | SetExpression charId value =>
      setExpressions (<[charId := value]> (expressions (store st))) st
  | ToggleVisualStyle style => handleVisualStyleChange style st
  | AddSpokenDialogue => handleAddSpokenDialogue st
  | ChangeSpokenDialogue index field value =>
      handleSpokenDialogueChange index field value st
  | RemoveSpokenDialogue index => handleRemoveSpokenDialogue index st
  | ResetForm => resetForm st
  end.

(** The state after a run of events from the initial state. *)
Definition session (events : list Event) : AppState :=
  fold_left handle events initialState.

(** Writing the action of a character into the keyed collection: the entry
    of the character is rewritten in place, or a new entry is added at the
    end. *)
Fixpoint writeAction (charId value : string) (actions : list CharacterAction)
    : list CharacterAction :=
  match actions with
  | [] =>
      [ {| ca_charId := charId; ca_action := value; ca_isMain := false;
           ca_dialogueLines := [] |} ]
  | ca :: actions' =>
      if decide (ca_charId ca = charId)
      then {| ca_charId := ca_charId ca; ca_action := value;
              ca_isMain := ca_isMain ca;
              ca_dialogueLines := ca_dialogueLines ca |} :: actions'
      else ca :: writeAction charId value actions'
  end.

(** Flipping the main mark of a character in the keyed collection. *)
Fixpoint flipMain (charId : string) (actions : list CharacterAction)
    : list CharacterAction :=
  match actions with
  | [] =>
      [ {| ca_charId := charId; ca_action := EmptyString; ca_isMain := true;
           ca_dialogueLines := [] |} ]
  | ca :: actions' =>
      if decide (ca_charId ca = charId)
      then {| ca_charId := ca_charId ca; ca_action := ca_action ca;
              ca_isMain := negb (ca_isMain ca);
              ca_dialogueLines := ca_dialogueLines ca |} :: actions'
      else ca :: flipMain charId actions'
  end.

(** The character types of the select. *)
Definition characterTypes : list string := ["human"; "animal4"; "animal2"; "fantasy"].

(** The response has the success status and a first part, and that part has
    no [text]. *)
Definition textMissing (outcome : FetchOutcome) : bool :=
  match outcome with
  | fetchThrows => false
  | fetchResolves response =>
      ok response &&
      match responseJson response ≫= firstPart with
      | Some part => match text part with Some _ => false | None => true end
      | None => false
      end
  end.

(** *** More scenarios *)

(** A scene with a place and a camera motion, no character, and an action
    and a spoken line left over for characters that are not there. *)
Definition empty_stage : AppState :=
  {| form := emptyForm;
     store := {|
       savedCharacters := [];
       selectedCharactersForActions := [];
       characterActions :=
         [ {| ca_charId := "7"; ca_action := "berlari"; ca_isMain := true;
              ca_dialogueLines := [] |} ];
       expressions := ∅;
       location := "Hutan";
       timeOfDay := EmptyString;
       cameraMotion := "Zoom In";
       lighting := EmptyString;
       selectedVisualStyles := ["3D"; "Anime"];
       videoMood := EmptyString;
       soundMusic := EmptyString;
       spokenDialogue :=
         [ {| sd_charId := "7"; sd_type := "Ask a question"; sd_sentence := "Siapa?";
              sd_targetCharId := EmptyString |} ];
       additionalDetails := "Tempo Cepat" |};
     ui := emptyUi |}.

(** Aria asks Budi a question. *)
Definition aria_asks_budi : AppState :=
  handleSpokenDialogueChange 0 field_sentence "Apa kabar?"
    (handleSpokenDialogueChange 0 field_targetCharId "2"
       (handleSpokenDialogueChange 0 field_type "Ask a question"
          (handleSpokenDialogueChange 0 field_charId "1"
             (handleAddSpokenDialogue (setSavedCharacters [aria; budi] initialState))))).

(** The form filled in for Aria. *)
Definition aria_form : AppState :=
  withForm (fun _ => {|
    characterName := "Aria";
    characterType := "human";
    humanDetails := <["age" := "25 tahun"]> (<["gender" := "Female"]> ∅);
    animal4Details := ∅;
    animal2Details := ∅;
    fantasyDetails := EmptyString |}) initialState.

(** *** The composer on a plain object *)






Section ComposerRun.
Context `{JSStringOps}.




End ComposerRun.


(** Aria runs and addresses the audience in an embedded line. *)
Definition aria_addresses_audience : AppState :=
  setCharacterActions
    (fun _ =>
       [ {| ca_charId := "1"; ca_action := "berlari"; ca_isMain := false;
            ca_dialogueLines :=
              [ {| line_type := "Berbicara ke Audiens"; line_sentence := "Halo semuanya";
                   line_targetCharId := None |} ] |} ])
    aria_alone.

(** * Properties *)

(** ** Strings and arrays *)

Lemma append_nil_r (s : string) : s +:+ EmptyString = s.
Proof.
  induction s as [|a s IH]; [reflexivity|].
  change (String a s +:+ EmptyString) with (String a (s +:+ EmptyString)).
  by rewrite IH.
Qed.

Lemma append_assoc (s1 s2 s3 : string) : (s1 +:+ s2) +:+ s3 = s1 +:+ s2 +:+ s3.
Proof.
  induction s1 as [|a s1 IH]; [reflexivity|].
  change ((String a s1 +:+ s2) +:+ s3) with (String a ((s1 +:+ s2) +:+ s3)).
  by rewrite IH.
Qed.

Lemma truthy_true (s : string) : truthy s = true <-> s <> EmptyString.
Proof. destruct s; simpl; split; intros; congruence. Qed.

Lemma truthy_false (s : string) : truthy s = false <-> s = EmptyString.
Proof. destruct s; simpl; split; intros; congruence. Qed.

Lemma prefix_spec (sub s : string) :
  String.prefix sub s = true <-> exists post, s = sub +:+ post.
Proof.
  revert s. induction sub as [|a sub IH]; intros s.
  - destruct s; simpl; split; eauto.
  - destruct s as [|b s]; simpl.
    + split; [discriminate|]. intros [post Hpost]. discriminate Hpost.
    + destruct (ascii_dec a b) as [->|Hab].
      * rewrite IH. split; intros [post Hpost]; exists post.
        -- by rewrite Hpost.
        -- change (String b sub +:+ post) with (String b (sub +:+ post)) in Hpost.
           congruence.
      * split; [discriminate|]. intros [post Hpost].
        change (String a sub +:+ post) with (String a (sub +:+ post)) in Hpost.
        congruence.
Qed.

(** [includes] decides whether [sub] occurs in [s]. *)
Lemma includes_spec (s sub : string) :
  includes s sub = true <-> exists pre post, s = pre +:+ sub +:+ post.
Proof.
  induction s as [|a s IH].
  - change (includes EmptyString sub) with (String.prefix sub EmptyString || false).
    rewrite orb_true_iff, prefix_spec. split.
    + intros [[post Hpost]|?]; [|discriminate]. by exists EmptyString, post.
    + intros [[|b pre] [post Hpost]]; [left; by exists post|discriminate Hpost].
  - change (includes (String a s) sub)
      with (String.prefix sub (String a s) || includes s sub).
    rewrite orb_true_iff, prefix_spec, IH. split.
    + intros [[post Hpost]|[pre [post Hpost]]].
      * by exists EmptyString, post.
      * exists (String a pre), post. by rewrite Hpost.
    + intros [[|b pre] [post Hpost]]; [left; by exists post|].
      right. exists pre, post.
      change (String b pre +:+ sub +:+ post) with (String b (pre +:+ sub +:+ post)) in Hpost.
      congruence.
Qed.

(** A loop body that only pushes can be run on the empty array and its
    sentences appended afterwards. *)
Lemma fold_left_pushes {A} (f : list string -> A -> list string) :
  (forall prompt a, f prompt a = prompt ++ f [] a) ->
  forall l prompt, fold_left f l prompt = prompt ++ fold_left f l [].
Proof.
  intros Hf l. induction l as [|a l IH]; intros prompt; simpl.
  - by rewrite app_nil_r.
  - rewrite IH, (IH (f [] a)), (Hf prompt a). by rewrite app_assoc.
Qed.

Lemma fold_left_pushes_app {A} (f : list string -> A -> list string) :
  (forall prompt a, f prompt a = prompt ++ f [] a) ->
  forall l1 l2, fold_left f (l1 ++ l2) [] = fold_left f l1 [] ++ fold_left f l2 [].
Proof.
  intros Hf l1 l2. rewrite fold_left_app. by apply fold_left_pushes.
Qed.

Lemma fold_left_push_map {A} (g : A -> string) (l : list A) (prompt : list string) :
  fold_left (fun prompt a => push prompt (g a)) l prompt = prompt ++ map g l.
Proof.
  revert prompt. induction l as [|a l IH]; intros prompt; simpl.
  - by rewrite app_nil_r.
  - rewrite IH. unfold push. by rewrite <- app_assoc.
Qed.

(** The joined string begins with the first element of the array. *)
Lemma join_head (sep : string) (l : list string) (x : string) :
  head l = Some x -> exists rest, join sep l = x +:+ rest.
Proof.
  destruct l as [|y l]; [discriminate|]. intros [= ->].
  destruct l as [|z l].
  - exists EmptyString. cbn. by rewrite append_nil_r.
  - by exists (sep +:+ join sep (z :: l)).
Qed.

(** The joined string holds each element of the array. *)
Lemma join_elem (sep : string) (l1 : list string) (x : string) (l2 : list string) :
  exists before after, join sep (l1 ++ x :: l2) = before +:+ x +:+ after.
Proof.
  induction l1 as [|y l1 IH].
  - destruct (join_head sep (x :: l2) x eq_refl) as [rest Hrest].
    by exists EmptyString, rest.
  - destruct IH as (before & after & IH).
    exists (y +:+ sep +:+ before), after.
    change (join sep ((y :: l1) ++ x :: l2))
      with (String.concat sep (y :: (l1 ++ x :: l2))).
    destruct (l1 ++ x :: l2) as [|z l] eqn:Hl; [by destruct l1|].
    change (String.concat sep (y :: z :: l)) with (y +:+ sep +:+ join sep (z :: l)).
    by rewrite IH, !append_assoc.
Qed.

Lemma join_elem_of (sep : string) (l : list string) (x : string) :
  x ∈ l -> exists before after, join sep l = before +:+ x +:+ after.
Proof.
  intros Hin. apply list_elem_of_split in Hin as (l1 & l2 & ->). apply join_elem.
Qed.

(** ** The blocks of the composer only push *)

Lemma pushDialogueLine_pushes (character : Character) prompt line :
  pushDialogueLine character prompt line = prompt ++ pushDialogueLine character [] line.
Proof.
  unfold pushDialogueLine, push. destruct (truthy _); [done|by rewrite app_nil_r].
Qed.

Section ComposerLemmas.
Context `{JSStringOps}.

Lemma pushCharacterAction_pushes s prompt ca :
  pushCharacterAction s prompt ca = prompt ++ pushCharacterAction s [] ca.
Proof.
  unfold pushCharacterAction.
  destruct (findCharacter _ _) as [character|]; [|by rewrite app_nil_r].
  rewrite (fold_left_pushes _ (pushDialogueLine_pushes character) _ (push prompt _)).
  rewrite (fold_left_pushes _ (pushDialogueLine_pushes character) _ (push [] _)).
  unfold push. by rewrite <- !app_assoc.
Qed.

Lemma pushSpokenDialogue_pushes s prompt sd :
  pushSpokenDialogue s prompt sd = prompt ++ pushSpokenDialogue s [] sd.
Proof.
  unfold pushSpokenDialogue, push.
  destruct (findCharacter _ (sd_charId sd)); [|by rewrite app_nil_r].
  destruct (truthy _); [done|by rewrite app_nil_r].
Qed.

Lemma pushSceneAttributes_pushes s prompt :
  pushSceneAttributes s prompt = prompt ++ sceneSentences s.
Proof.
  unfold sceneSentences, pushSceneAttributes, push.
  repeat match goal with
         | |- context [if ?b then _ else _] => destruct b
         | |- context [match ?o with Some _ => _ | None => _ end] => destruct o
         end;
    rewrite <- ?app_assoc, ?app_nil_r; reflexivity.
Qed.

Lemma pushAdditionalDetails_pushes s prompt :
  pushAdditionalDetails s prompt = prompt ++ additionalSentences s.
Proof.
  unfold additionalSentences, pushAdditionalDetails, push.
  destruct (truthy _); [done|by rewrite app_nil_r].
Qed.

End ComposerLemmas.

(** ** Looking characters up *)

Lemma findCharacter_Some saved charId character :
  findCharacter saved charId = Some character ->
  character ∈ saved /\ char_id character = charId.
Proof.
  unfold findCharacter. intros Hfind. apply find_some in Hfind as [Hin Hid].
  split; [by apply list_elem_of_In|]. by apply bool_decide_eq_true in Hid.
Qed.


(** With committed (non-empty) names, [filter(Boolean)] drops exactly the
    main entries that resolve to no character. *)
Lemma mainCharacters_names s :
  committedNames s -> mainCharacters s = mainCharacterNames s.
Proof.
  unfold committedNames, mainCharacters, mainCharacterNames. intros Hnames.
  induction (characterActions s) as [|ca actions IH]; [reflexivity|].
  simpl. destruct (ca_isMain ca); [|exact IH].
  simpl. destruct (findCharacter _ _) as [character|] eqn:Hfind; simpl; [|exact IH].
  apply findCharacter_Some in Hfind as [Hin _].
  rewrite Forall_forall in Hnames. apply Hnames, truthy_true in Hin.
  rewrite Hin. by rewrite IH.
Qed.

(** Saving keeps the names of the saved characters non-empty: the handler
    returns early on an empty [characterName]. *)
Lemma handleSaveCharacter_committedNames now st :
  committedNames (store st) -> committedNames (store (handleSaveCharacter now st)).
Proof.
  unfold committedNames, handleSaveCharacter. intros Hnames.
  destruct (truthy (characterName (form st))) eqn:Hname; [|exact Hnames].
  cbn [negb]. destruct (newCharacterDetails (form st)); [|exact Hnames].
  cbn [showCustomModal withUi withForm setSavedCharacters withStore store savedCharacters].
  apply Forall_app. split; [exact Hnames|].
  constructor; [|constructor]. by apply truthy_true.
Qed.

Lemma mainCharacterNames_no_characters s :
  savedCharacters s = [] -> mainCharacterNames s = [].
Proof.
  unfold mainCharacterNames. intros ->.
  induction (characterActions s) as [|ca actions IH]; [reflexivity|].
  simpl. by destruct (ca_isMain ca).
Qed.

Section Steps.
Context `{JSStringOps}.

(** The first block pushes the main-character sentence, if any, and the
    introductions. *)
Lemma pushCharacters_sentences st :
  committedNames (store st) ->
  pushCharacters st [] = mainCharacterSentences (store st) ++ introductionSentences st.
Proof.
  intros Hnames. unfold pushCharacters, mainCharacterSentences, introductionSentences.
  rewrite (mainCharacters_names _ Hnames).
  destruct (savedCharacters (store st)) as [|char saved] eqn:Hsaved.
  - by rewrite (mainCharacterNames_no_characters _ Hsaved).
  - change (0 <? length (char :: saved)) with true. cbv iota.
    rewrite fold_left_push_map.
    by destruct (mainCharacterNames (store st)).
Qed.


(** The array that is joined is the concatenation of the steps, in the
    order of the source. *)
Lemma promptSentences_steps st :
  promptSentences st =
    pushCharacters st [] ++
    actionSentences (store st) (characterActions (store st)) ++
    sceneSentences (store st) ++
    spokenSentences (store st) (spokenDialogue (store st)) ++
    additionalSentences (store st).
Proof.
  unfold promptSentences, actionSentences, spokenSentences.
  rewrite pushAdditionalDetails_pushes.
  rewrite (fold_left_pushes _ (pushSpokenDialogue_pushes (store st))).
  rewrite pushSceneAttributes_pushes.
  rewrite (fold_left_pushes _ (pushCharacterAction_pushes (store st))).
  by rewrite <- !app_assoc.
Qed.



End Steps.

(** ** The composer *)

Section ComposerProperties.
Context `{JSStringOps}.

(** C6.  In a snapshot of committed characters, when some CharacterAction
    with [isMain = true] resolves to a character, the first sentence of the
    composition is the callout naming exactly the characters of those
    entries, by name, joined with " dan ", and the output string begins with
    it; when none does, there is no callout and the composition is made of
    the other steps only. *)
Theorem C6_main_character_callout (st : AppState) :
  committedNames (store st) ->
  (mainCharacterNames (store st) <> [] ->
     head (promptSentences st) =
       Some ("Karakter utama adalah " +:+
             join " dan " (mainCharacterNames (store st)) +:+ ".") /\
     exists rest,
       compose st =
         ("Karakter utama adalah " +:+
          join " dan " (mainCharacterNames (store st)) +:+ ".") +:+ rest) /\
  (mainCharacterNames (store st) = [] ->
     promptSentences st =
       introductionSentences st ++
       actionSentences (store st) (characterActions (store st)) ++
       sceneSentences (store st) ++
       spokenSentences (store st) (spokenDialogue (store st)) ++
       additionalSentences (store st)).
Proof.
  intros Hnames.
  assert (Hhead : mainCharacterNames (store st) <> [] ->
            head (promptSentences st) =
              Some ("Karakter utama adalah " +:+
                    join " dan " (mainCharacterNames (store st)) +:+ ".")).
  { intros Hmain.
    rewrite promptSentences_steps, (pushCharacters_sentences _ Hnames).
    unfold mainCharacterSentences.
    destruct (mainCharacterNames (store st)); [done|reflexivity]. }
  split; intros Hmain.
  - split; [by apply Hhead|]. apply join_head. by apply Hhead.
  - rewrite promptSentences_steps, (pushCharacters_sentences _ Hnames).
    unfold mainCharacterSentences. by rewrite Hmain.
Qed.


(** *** Entries that resolve to no character *)

Lemma pushCharacterAction_dangling s prompt ca :
  findCharacter (savedCharacters s) (ca_charId ca) = None ->
  pushCharacterAction s prompt ca = prompt.
Proof. unfold pushCharacterAction. by intros ->. Qed.

Lemma pushSpokenDialogue_dangling s prompt sd :
  findCharacter (savedCharacters s) (sd_charId sd) = None ->
  pushSpokenDialogue s prompt sd = prompt.
Proof. unfold pushSpokenDialogue. by intros ->. Qed.





(** *** The composer as it runs *)




(** *** Embedded dialogue lines *)

Lemma pushDialogueLine_asAnswer character prompt line :
  pushDialogueLine character prompt (asAnswer line) =
  pushDialogueLine character prompt line.
Proof.
  unfold asAnswer. destruct (String.eqb (line_type line) _) eqn:Htype; [|reflexivity].
  apply String.eqb_eq in Htype. unfold pushDialogueLine.
  cbn [line_type line_sentence]. by rewrite Htype.
Qed.

Lemma fold_pushDialogueLine_asAnswer character lines prompt :
  fold_left (pushDialogueLine character) (map asAnswer lines) prompt =
  fold_left (pushDialogueLine character) lines prompt.
Proof.
  revert prompt. induction lines as [|line lines IH]; intros prompt; [reflexivity|].
  cbn [map fold_left]. by rewrite pushDialogueLine_asAnswer, IH.
Qed.

Lemma fold_pushCharacterAction_asAnswer s actions prompt :
  fold_left (pushCharacterAction s)
    (map (fun ca =>
            {| ca_charId := ca_charId ca;
               ca_action := ca_action ca;
               ca_isMain := ca_isMain ca;
               ca_dialogueLines := map asAnswer (ca_dialogueLines ca) |}) actions) prompt =
  fold_left (pushCharacterAction s) actions prompt.
Proof.
  revert prompt. induction actions as [|ca actions IH]; intros prompt; [reflexivity|].
  cbn [map fold_left]. rewrite IH. f_equal.
  unfold pushCharacterAction. cbn [ca_charId ca_action ca_dialogueLines].
  destruct (findCharacter _ _); [|reflexivity].
  apply fold_pushDialogueLine_asAnswer.
Qed.

Lemma mainCharacters_asAnswer saved actions :
  map (fun ca => char_name <$> findCharacter saved (ca_charId ca))
    (List.filter ca_isMain
       (map (fun ca =>
               {| ca_charId := ca_charId ca;
                  ca_action := ca_action ca;
                  ca_isMain := ca_isMain ca;
                  ca_dialogueLines := map asAnswer (ca_dialogueLines ca) |}) actions)) =
  map (fun ca => char_name <$> findCharacter saved (ca_charId ca))
    (List.filter ca_isMain actions).
Proof.
  induction actions as [|ca actions IH]; [reflexivity|].
  cbn [map List.filter ca_isMain]. destruct (ca_isMain ca); [|exact IH].
  cbn [map ca_charId]. by rewrite IH.
Qed.

Lemma promptSentences_audienceAsAnswer st :
  promptSentences (audienceAsAnswer st) = promptSentences st.
Proof.
  unfold promptSentences, pushCharacters, mainCharacters.
  change (savedCharacters (store (audienceAsAnswer st)))
    with (savedCharacters (store st)).
  change (form (audienceAsAnswer st)) with (form st).
  change (spokenDialogue (store (audienceAsAnswer st)))
    with (spokenDialogue (store st)).
  change (characterActions (store (audienceAsAnswer st)))
    with (map (fun ca =>
                 {| ca_charId := ca_charId ca;
                    ca_action := ca_action ca;
                    ca_isMain := ca_isMain ca;
                    ca_dialogueLines := map asAnswer (ca_dialogueLines ca) |})
              (characterActions (store st))).
  change (pushCharacterAction (store (audienceAsAnswer st)))
    with (pushCharacterAction (store st)).
  change (pushSpokenDialogue (store (audienceAsAnswer st)))
    with (pushSpokenDialogue (store st)).
  change (pushSceneAttributes (store (audienceAsAnswer st)))
    with (pushSceneAttributes (store st)).
  change (pushAdditionalDetails (store (audienceAsAnswer st)))
    with (pushAdditionalDetails (store st)).
  by rewrite mainCharacters_asAnswer, fold_pushCharacterAction_asAnswer.
Qed.

(** C4.  In a snapshot that holds, among the lines of a CharacterAction that
    resolves to a character, a line with a non-empty sentence and the type
    AddressAudience ("Berbicara ke Audiens"), the composition has at the
    place of that line the sentence an Answer line with that sentence gives:
    the speaker's name, the answer verb "menjawab" and the quoted sentence,
    with nothing that marks the audience.  The output string is the join of
    the sentences before it, that sentence and the sentences after it, and
    reading every such line of the snapshot as an Answer leaves it
    unchanged. *)
Theorem C4_audience_line_is_an_answer_line
    (st : AppState) (ca : CharacterAction) (character : Character)
    (line : DialogueLine)
    (actionsBefore actionsAfter : list CharacterAction)
    (linesBefore linesAfter : list DialogueLine) :
  characterActions (store st) = actionsBefore ++ ca :: actionsAfter ->
  findCharacter (savedCharacters (store st)) (ca_charId ca) = Some character ->
  ca_dialogueLines ca = linesBefore ++ line :: linesAfter ->
  line_sentence line <> EmptyString ->
  line_type line = "Berbicara ke Audiens" ->
  (forall prompt,
     pushDialogueLine character prompt line =
       prompt ++ [char_name character +:+ " menjawab: " +:+
                  dquote +:+ line_sentence line +:+ dquote]) /\
  (forall prompt answer,
     line_type answer = "Give an answer" ->
     line_sentence answer = line_sentence line ->
     pushDialogueLine character prompt answer =
       prompt ++ [char_name character +:+ " menjawab: " +:+
                  dquote +:+ line_sentence line +:+ dquote]) /\
  line_type (asAnswer line) = "Give an answer" /\
  line_sentence (asAnswer line) = line_sentence line /\
  (forall prompt,
     pushDialogueLine character prompt (asAnswer line) =
     pushDialogueLine character prompt line) /\
  compose st =
    join " "
      (pushCharacters st [] ++
       actionSentences (store st) actionsBefore ++
       pushCharacterAction (store st) []
         {| ca_charId := ca_charId ca; ca_action := ca_action ca;
            ca_isMain := ca_isMain ca; ca_dialogueLines := linesBefore |} ++
       [char_name character +:+ " menjawab: " +:+
        dquote +:+ line_sentence line +:+ dquote] ++
       fold_left (pushDialogueLine character) linesAfter [] ++
       actionSentences (store st) actionsAfter ++
       sceneSentences (store st) ++
       spokenSentences (store st) (spokenDialogue (store st)) ++
       additionalSentences (store st)) /\
  (exists before after,
     compose st =
       before +:+
       (char_name character +:+ " menjawab: " +:+
        dquote +:+ line_sentence line +:+ dquote) +:+
       after) /\
  compose (audienceAsAnswer st) = compose st.
Proof.
  intros Hactions Hcharacter Hlines Hsentence Htype.
  apply truthy_true in Hsentence.
  assert (Hline : forall prompt,
            pushDialogueLine character prompt line =
            prompt ++ [char_name character +:+ " menjawab: " +:+
                       dquote +:+ line_sentence line +:+ dquote]).
  { intros prompt. unfold pushDialogueLine, push. by rewrite Hsentence, Htype. }
  assert (Hsplit :
    pushCharacterAction (store st) [] ca =
    fold_left (pushDialogueLine character) linesAfter
      (pushDialogueLine character
         (pushCharacterAction (store st) []
            {| ca_charId := ca_charId ca; ca_action := ca_action ca;
               ca_isMain := ca_isMain ca; ca_dialogueLines := linesBefore |})
         line)).
  { unfold pushCharacterAction. cbn [ca_charId ca_action ca_dialogueLines].
    by rewrite Hcharacter, Hlines, fold_left_app. }
  assert (Hsentences :
    promptSentences st =
      pushCharacters st [] ++
      actionSentences (store st) actionsBefore ++
      pushCharacterAction (store st) []
        {| ca_charId := ca_charId ca; ca_action := ca_action ca;
           ca_isMain := ca_isMain ca; ca_dialogueLines := linesBefore |} ++
      [char_name character +:+ " menjawab: " +:+
       dquote +:+ line_sentence line +:+ dquote] ++
      fold_left (pushDialogueLine character) linesAfter [] ++
      actionSentences (store st) actionsAfter ++
      sceneSentences (store st) ++
      spokenSentences (store st) (spokenDialogue (store st)) ++
      additionalSentences (store st)).
  { rewrite promptSentences_steps, Hactions. unfold actionSentences.
    rewrite (fold_left_pushes_app _ (pushCharacterAction_pushes (store st))).
    cbn [fold_left].
    rewrite (fold_left_pushes _ (pushCharacterAction_pushes (store st)) actionsAfter).
    rewrite Hsplit, Hline.
    rewrite (fold_left_pushes _ (pushDialogueLine_pushes character) linesAfter).
    by rewrite <- !app_assoc. }
  split; [exact Hline|]. split; [|split; [|split; [|split; [|split; [|split]]]]].
  - intros prompt answer Hanswer Hsame. unfold pushDialogueLine, push.
    by rewrite Hsame, Hsentence, Hanswer.
  - unfold asAnswer. by rewrite Htype.
  - unfold asAnswer. by rewrite Htype.
  - intros prompt. apply pushDialogueLine_asAnswer.
  - unfold compose. by rewrite Hsentences.
  - unfold compose. rewrite Hsentences. apply join_elem_of.
    rewrite !elem_of_app, list_elem_of_singleton. tauto.
  - unfold compose. by rewrite promptSentences_audienceAsAnswer.
Qed.

(** *** Spoken dialogue *)

(** C10.  A SpokenDialogue entry whose speaker resolves and whose sentence is
    non-empty, but whose type is none of "Ask a question", "Give an answer"
    and "Berbicara ke Audiens", still pushes a fragment: the speaker's name
    followed by one space, without verb and without the sentence.  The
    fragment stands in the composition at the entry's place among the spoken
    dialogue, and the output string is the join of the sentences before it,
    the fragment and the sentences after it. *)
Theorem C10_untyped_spoken_dialogue_fragment
    (st : AppState) (sd : SpokenDialogue) (speaker : Character)
    (before after : list SpokenDialogue) :
  spokenDialogue (store st) = before ++ sd :: after ->
  findCharacter (savedCharacters (store st)) (sd_charId sd) = Some speaker ->
  sd_sentence sd <> EmptyString ->
  unrecognizedType (sd_type sd) ->
  (forall prompt,
     pushSpokenDialogue (store st) prompt sd = prompt ++ [char_name speaker +:+ " "]) /\
  promptSentences st =
    (pushCharacters st [] ++
     actionSentences (store st) (characterActions (store st)) ++
     sceneSentences (store st)) ++
    spokenSentences (store st) before ++
    [char_name speaker +:+ " "] ++
    spokenSentences (store st) after ++
    additionalSentences (store st) /\
  compose st =
    join " "
      ((pushCharacters st [] ++
        actionSentences (store st) (characterActions (store st)) ++
        sceneSentences (store st)) ++
       spokenSentences (store st) before ++
       [char_name speaker +:+ " "] ++
       spokenSentences (store st) after ++
       additionalSentences (store st)) /\
  (exists outputBefore outputAfter,
     compose st = outputBefore +:+ (char_name speaker +:+ " ") +:+ outputAfter).
Proof.
  intros Hdialogue Hspeaker Hsentence (Hq & Ha & Haud).
  apply truthy_true in Hsentence.
  apply String.eqb_neq in Hq, Ha, Haud.
  assert (Hpush : forall prompt,
             pushSpokenDialogue (store st) prompt sd =
             prompt ++ [char_name speaker +:+ " "]).
  { intros prompt. unfold pushSpokenDialogue, push.
    by rewrite Hspeaker, Hsentence, Hq, Ha, Haud. }
  assert (Hsentences :
    promptSentences st =
      (pushCharacters st [] ++
       actionSentences (store st) (characterActions (store st)) ++
       sceneSentences (store st)) ++
      spokenSentences (store st) before ++
      [char_name speaker +:+ " "] ++
      spokenSentences (store st) after ++
      additionalSentences (store st)).
  { rewrite promptSentences_steps, Hdialogue. unfold spokenSentences.
    rewrite (fold_left_pushes_app _ (pushSpokenDialogue_pushes (store st))).
    cbn [fold_left].
    rewrite (fold_left_pushes _ (pushSpokenDialogue_pushes (store st)) after).
    rewrite Hpush. by rewrite <- !app_assoc. }
  split; [exact Hpush|]. split; [exact Hsentences|]. split.
  - unfold compose. by rewrite Hsentences.
  - unfold compose. rewrite Hsentences. apply join_elem_of.
    rewrite !elem_of_app, list_elem_of_singleton. tauto.
Qed.

End ComposerProperties.

(** ** The entity store *)

Lemma toggleStyle_elem (style : string) (prevStyles : list string) (s : string) :
  s ∈ toggleStyle style prevStyles <->
  (s ∈ prevStyles /\ s <> style) \/ (s = style /\ style ∉ prevStyles).
Proof.
  unfold toggleStyle. destruct (existsb _ _) eqn:Hincludes.
  - apply existsb_exists in Hincludes as (x & Hx & Heq).
    apply String.eqb_eq in Heq as <-. apply list_elem_of_In in Hx.
    rewrite list_elem_of_In, filter_In, <- list_elem_of_In, negb_true_iff, String.eqb_neq.
    intuition congruence.
  - assert (style ∉ prevStyles) as Hnot.
    { intros Hin%list_elem_of_In.
      assert (existsb (String.eqb style) prevStyles = true) as Htrue; [|congruence].
      apply existsb_exists. exists style. split; [done|apply String.eqb_refl]. }
    rewrite elem_of_app, list_elem_of_singleton.
    destruct (decide (s = style)); intuition congruence.
Qed.

(** C8.  [handleVisualStyleChange] removes the style from the selection when
    it is a member and adds it otherwise: afterwards a style is selected when
    it was selected and is another one, or when it is the toggled one and was
    not selected.  Toggling the same style twice gives back the membership
    the selection started with. *)
Theorem C8_toggleVisualStyle_symmetric_difference
    (st : AppState) (style s : string) :
  (s ∈ selectedVisualStyles (store (handleVisualStyleChange style st)) <->
     (s ∈ selectedVisualStyles (store st) /\ s <> style) \/
     (s = style /\ style ∉ selectedVisualStyles (store st))) /\
  (s ∈ selectedVisualStyles
         (store (handleVisualStyleChange style (handleVisualStyleChange style st))) <->
     s ∈ selectedVisualStyles (store st)).
Proof.
  cbn [handleVisualStyleChange setSelectedVisualStyles withStore store selectedVisualStyles].
  split; [apply toggleStyle_elem|].
  rewrite toggleStyle_elem.
  rewrite (toggleStyle_elem style _ s), (toggleStyle_elem style _ style).
  destruct (decide (s = style)) as [->|];
    destruct (decide (style ∈ selectedVisualStyles (store st))); intuition congruence.
Qed.

Lemma actionOf_None s charId :
  actionOf s charId = None <->
  forall ca, ca ∈ characterActions s -> ca_charId ca <> charId.
Proof.
  unfold actionOf. rewrite fmap_None, list_find_None, Forall_forall. reflexivity.
Qed.

(** Unchecking a character under "Select Characters for Actions" drops its
    CharacterAction entry and keeps the entries of the others; the
    expression mapping is left as it was, and the character stays saved. *)
Lemma deselect_drops_action_keeps_expression (st : AppState) (charId : string) :
  actionOf (store (selectedCharactersForActions_onChange false charId st)) charId = None /\
  (forall ca,
     ca ∈ characterActions (store (selectedCharactersForActions_onChange false charId st)) <->
     ca ∈ characterActions (store st) /\ ca_charId ca <> charId) /\
  (charId ∉ selectedCharactersForActions
              (store (selectedCharactersForActions_onChange false charId st))) /\
  expressions (store (selectedCharactersForActions_onChange false charId st)) =
    expressions (store st) /\
  savedCharacters (store (selectedCharactersForActions_onChange false charId st)) =
    savedCharacters (store st).
Proof.
  assert (Hmem : forall ca,
    ca ∈ characterActions (store (selectedCharactersForActions_onChange false charId st)) <->
    ca ∈ characterActions (store st) /\ ca_charId ca <> charId).
  { intros ca.
    cbn [selectedCharactersForActions_onChange setCharacterActions
         setSelectedCharactersForActions withStore store characterActions].
    by rewrite list_elem_of_In, filter_In, <- list_elem_of_In, negb_true_iff, String.eqb_neq. }
  split; [|split; [exact Hmem|split; [|split; reflexivity]]].
  - apply actionOf_None. intros ca Hca. by apply Hmem in Hca as [_ ?].
  - cbn [selectedCharactersForActions_onChange setCharacterActions
         setSelectedCharactersForActions withStore store selectedCharactersForActions].
    rewrite list_elem_of_In, filter_In, negb_true_iff, String.eqb_neq. intuition congruence.
Qed.



(** *** Writing an action *)

Lemma handleCharacterActionChange_actionOf (st : AppState) (charId value : string) :
  exists ca,
    actionOf (store (handleCharacterActionChange charId value st)) charId = Some ca /\
    ca_charId ca = charId /\ ca_action ca = value.
Proof.
  unfold actionOf.
  cbn [handleCharacterActionChange setCharacterActions withStore store characterActions].
  destruct (list_find _ (characterActions (store st))) as [[i existing]|] eqn:Hfind.
  - apply list_find_Some in Hfind as (Hi & Hid & Hleast).
    exists {| ca_charId := ca_charId existing;
              ca_action := value;
              ca_isMain := ca_isMain existing;
              ca_dialogueLines := ca_dialogueLines existing |}.
    split; [|split; [exact Hid|reflexivity]].
    apply fmap_Some. eexists (i, _). split; [|reflexivity].
    apply list_find_insert_Some. right. left.
    split; [reflexivity|]. split; [reflexivity|].
    split; [by eapply lookup_lt_Some|]. split; [exact Hid|exact Hleast].
  - exists {| ca_charId := charId; ca_action := value; ca_isMain := false;
              ca_dialogueLines := [] |}.
    split; [|split; reflexivity].
    rewrite (list_find_app_r _ _ _ Hfind). cbn.
    rewrite decide_True by reflexivity. reflexivity.
Qed.

Lemma serviceResult_firstPart (response : Response) :
  ok response = true ->
  serviceResult (fetchResolves response) =
    (responseJson response ≫= firstPart) ≫= text.
Proof.
  intros Hok. unfold serviceResult, firstPart. rewrite Hok.
  destruct (responseJson response) as [result|]; [|reflexivity]. cbn.
  destruct (candidates result) as [[|candidate cs]|]; [reflexivity| |reflexivity]. cbn.
  destruct (content candidate) as [c|]; [|reflexivity]. cbn.
  by destruct (parts c) as [[|part ps]|].
Qed.

Section SuggestionProperties.
Context `{JSStringOps}.

(** When the request settles, on whatever state the store is in by then: the
    store is the one [handleCharacterActionChange] gives for the trimmed
    result, or is untouched. *)
Lemma suggestCharacterAction_settle_store charId character outcome st :
  store (suggestCharacterAction_settle charId character outcome st) =
    match serviceResult outcome with
    | Some t => store (handleCharacterActionChange charId (trim t) st)
    | None => store st
    end.
Proof.
  unfold suggestCharacterAction_settle, suggestCharacterAction_try.
  destruct outcome as [|response]; [reflexivity|].
  destruct (ok response) eqn:Hok; [|by unfold serviceResult; rewrite Hok].
  rewrite (serviceResult_firstPart _ Hok). cbn [negb].
  destruct (responseJson response) as [result|]; [|reflexivity]. cbn.
  destruct (firstPart result) as [part|]; [|reflexivity]. cbn.
  by destruct (text part).
Qed.

Lemma suggestCharacterAction_settle_form charId character outcome st :
  form (suggestCharacterAction_settle charId character outcome st) = form st.
Proof.
  unfold suggestCharacterAction_settle, suggestCharacterAction_try.
  destruct outcome as [|response]; [reflexivity|].
  destruct (ok response); cbn [negb]; [|reflexivity].
  destruct (responseJson response) as [result|]; [|reflexivity].
  destruct (firstPart result) as [part|]; [|reflexivity].
  by destruct (text part).
Qed.

(** Of the outputs and flags only the modal and the flag of [charId] change. *)
Lemma suggestCharacterAction_settle_ui charId character outcome st :
  let u := ui (suggestCharacterAction_settle charId character outcome st) in
  isLoadingActionSuggestion u = <[charId := false]> (isLoadingActionSuggestion (ui st)) /\
  isLoadingDialogueSuggestion u = isLoadingDialogueSuggestion (ui st) /\
  isLoadingPrompt u = isLoadingPrompt (ui st) /\
  indonesianPrompt u = indonesianPrompt (ui st) /\
  englishPrompt u = englishPrompt (ui st).
Proof.
  unfold suggestCharacterAction_settle, suggestCharacterAction_try.
  destruct outcome as [|response]; [done|].
  destruct (ok response); cbn [negb]; [|done].
  destruct (responseJson response) as [result|]; [|done].
  destruct (firstPart result) as [part|]; [|done].
  by destruct (text part).
Qed.

End SuggestionProperties.

Section SuggestionClient.
Context `{JSStringOps}.

(** C3.  For a committed character, a call of [suggestCharacterAction] whose
    response has the success status and the candidates/content/parts shape
    leaves the store as [handleCharacterActionChange] makes it for the
    trimmed text, so that the character's CharacterAction has that text as
    its action; any other outcome leaves the whole store as it was.  On every
    outcome the form is untouched and, of the flags and outputs, only the
    loading flag of that character (set to [false]) and the modal change. *)
Theorem C3_suggestCharacterAction_write_back
    (st : AppState) (charId : string) (character : Character)
    (outcome : FetchOutcome) :
  findCharacter (savedCharacters (store st)) charId = Some character ->
  (forall t, serviceResult outcome = Some t ->
     store (suggestCharacterAction charId outcome st) =
       store (handleCharacterActionChange charId (trim t) st) /\
     exists ca,
       actionOf (store (suggestCharacterAction charId outcome st)) charId = Some ca /\
       ca_action ca = trim t) /\
  (serviceResult outcome = None ->
     store (suggestCharacterAction charId outcome st) = store st) /\
  form (suggestCharacterAction charId outcome st) = form st /\
  isLoadingActionSuggestion (ui (suggestCharacterAction charId outcome st)) =
    <[charId := false]> (isLoadingActionSuggestion (ui st)) /\
  isLoadingDialogueSuggestion (ui (suggestCharacterAction charId outcome st)) =
    isLoadingDialogueSuggestion (ui st) /\
  isLoadingPrompt (ui (suggestCharacterAction charId outcome st)) =
    isLoadingPrompt (ui st) /\
  indonesianPrompt (ui (suggestCharacterAction charId outcome st)) =
    indonesianPrompt (ui st) /\
  englishPrompt (ui (suggestCharacterAction charId outcome st)) =
    englishPrompt (ui st).
Proof.
  intros Hcharacter.
  unfold suggestCharacterAction, suggestCharacterAction_begin. rewrite Hcharacter.
  set (st1 := setIsLoadingActionSuggestion _ st).
  pose proof (suggestCharacterAction_settle_store charId character outcome st1) as Hstore.
  pose proof (suggestCharacterAction_settle_ui charId character outcome st1)
    as (Hflag & Hdialogue & Hprompt & Hid & Hen).
  split; [|split; [|split; [|split; [|repeat split]]]].
  - intros t Ht. rewrite Ht in Hstore. rewrite Hstore.
    change (store (handleCharacterActionChange charId (trim t) st1))
      with (store (handleCharacterActionChange charId (trim t) st)).
    split; [reflexivity|].
    destruct (handleCharacterActionChange_actionOf st charId (trim t)) as (ca & Hca & _ & Haction).
    by exists ca.
  - intros Hnone. rewrite Hnone in Hstore. exact Hstore.
  - exact (suggestCharacterAction_settle_form charId character outcome st1).
  - rewrite Hflag. subst st1.
    cbn [setIsLoadingActionSuggestion withUi ui isLoadingActionSuggestion].
    apply insert_insert_eq.
  - exact Hdialogue.
  - exact Hprompt.
  - exact Hid.
  - exact Hen.
Qed.

End SuggestionClient.

(** ** What the composition reads *)

Section ComposerInputs.
Context `{JSStringOps}.

Lemma characterDescription_form_age a2 a2' char :
  a2 !! "age" = a2' !! "age" ->
  characterDescription a2 char = characterDescription a2' char.
Proof.
  intros Hage. unfold characterDescription.
  destruct (char_details char); [reflexivity|reflexivity| |reflexivity].
  by rewrite Hage.
Qed.

(** The age saved with a two-legged animal plays no part in its description. *)
Lemma characterDescription_ignores_saved_age a2 id name details age :
  characterDescription a2
    {| char_id := id; char_name := name;
       char_details := animal2 (<["age" := age]> details) |} =
  characterDescription a2
    {| char_id := id; char_name := name;
       char_details := animal2 (delete "age" details) |}.
Proof.
  unfold characterDescription, char_type. cbn [char_details char_name].
  rewrite !lookup_insert_ne by discriminate.
  rewrite !lookup_delete_ne by discriminate.
  reflexivity.
Qed.

(** The composition is a function of the entity store together with the age
    select of the character form. *)
Lemma compose_reads_store_and_form_age st1 st2 :
  store st1 = store st2 ->
  animal2Details (form st1) !! "age" = animal2Details (form st2) !! "age" ->
  compose st1 = compose st2.
Proof.
  intros Hstore Hage. unfold compose, promptSentences, pushCharacters.
  rewrite Hstore, !fold_left_push_map.
  do 6 f_equal.
  destruct (0 <? length (savedCharacters (store st2))); [|reflexivity].
  f_equal. apply map_ext. intros char.
  by rewrite (characterDescription_form_age _ _ char Hage).
Qed.

End ComposerInputs.

(** * More of the composer *)

Lemma join_last (sep : string) (l : list string) (x : string) :
  last l = Some x -> exists before, join sep l = before +:+ x.
Proof.
  induction l as [|y l IH]; [discriminate|].
  destruct l as [|z l].
  - intros [= ->]. by exists EmptyString.
  - intros Hlast. destruct (IH Hlast) as [before Hbefore].
    exists (y +:+ sep +:+ before).
    change (join sep (y :: z :: l)) with (y +:+ sep +:+ join sep (z :: l)).
    by rewrite Hbefore, !append_assoc.
Qed.

(** The keys of the camera table are pairwise distinct: looking an entry up
    by its English name finds that entry. *)
Lemma cameraMotion_lookup (m : CameraMotion) :
  m ∈ dropdownData.cameraMotion ->
  List.find (fun m' => String.eqb (en m') (en m)) dropdownData.cameraMotion = Some m /\
  truthy (en m) = true.
Proof.
  unfold dropdownData.cameraMotion. intros Hm.
  repeat (apply elem_of_cons in Hm as [->|Hm]; [split; reflexivity|]).
  by apply elem_of_nil in Hm.
Qed.

Section ComposerExtras.
Context `{JSStringOps}.

Lemma fold_pushCharacterAction_no_characters s actions prompt :
  savedCharacters s = [] ->
  fold_left (pushCharacterAction s) actions prompt = prompt.
Proof.
  intros Hsaved. revert prompt.
  induction actions as [|ca actions IH]; intros prompt; [reflexivity|].
  cbn [fold_left]. rewrite pushCharacterAction_dangling; [apply IH|].
  by rewrite Hsaved.
Qed.

Lemma fold_pushSpokenDialogue_no_characters s dialogue prompt :
  savedCharacters s = [] ->
  fold_left (pushSpokenDialogue s) dialogue prompt = prompt.
Proof.
  intros Hsaved. revert prompt.
  induction dialogue as [|sd dialogue IH]; intros prompt; [reflexivity|].
  cbn [fold_left]. rewrite pushSpokenDialogue_dangling; [apply IH|].
  by rewrite Hsaved.
Qed.

(** X1.  With no saved character the composition is the scene attributes
    followed by the additional details: actions, main marks and spoken
    dialogue that are still in the store contribute nothing. *)
Theorem X1_no_characters_scene_only (st : AppState) :
  savedCharacters (store st) = [] ->
  promptSentences st = sceneSentences (store st) ++ additionalSentences (store st).
Proof.
  intros Hsaved. rewrite promptSentences_steps.
  unfold pushCharacters, actionSentences, spokenSentences.
  rewrite (fold_pushCharacterAction_no_characters _ _ _ Hsaved).
  rewrite (fold_pushSpokenDialogue_no_characters _ _ _ Hsaved).
  by rewrite Hsaved.
Qed.

Lemma sceneSentences_parts (s : EntityStore) :
  sceneSentences s = concat (sceneParts s).
Proof.
  unfold sceneSentences, pushSceneAttributes, sceneParts, attributeSentence, push.
  destruct (selectedVisualStyles s) as [|style styles];
    [change (0 <? length []) with false
    |change (0 <? length (style :: styles)) with true];
    destruct (List.find _ dropdownData.cameraMotion);
    destruct (truthy (location s)); destruct (truthy (timeOfDay s));
    destruct (truthy (cameraMotion s)); destruct (truthy (lighting s));
    destruct (truthy (videoMood s)); destruct (truthy (soundMusic s));
    reflexivity.
Qed.

(** X2.  The scene step is the concatenation, in the order location, time of
    day, camera motion, lighting, visual styles, mood and sound, of one
    sentence for each attribute that is set and none for one that is not. *)
Theorem X2_scene_attributes_in_order (s : EntityStore) :
  sceneSentences s = concat (sceneParts s).
Proof. apply sceneSentences_parts. Qed.

(** X3.  A camera motion chosen from the dropdown is rendered by the
    Indonesian label of its own entry, not by the stored English key. *)
Theorem X3_camera_motion_by_label (st : AppState) (m : CameraMotion) :
  m ∈ dropdownData.cameraMotion ->
  cameraMotion (store st) = en m ->
  "Gerakan kamera: " +:+ idn m +:+ "." ∈ promptSentences st.
Proof.
  intros Hm Hcamera. destruct (cameraMotion_lookup m Hm) as [Hfind Htruthy].
  rewrite promptSentences_steps, sceneSentences_parts.
  rewrite !elem_of_app. right. right. left.
  unfold sceneParts. rewrite Hcamera, Hfind, Htruthy.
  cbn [concat]. rewrite !elem_of_app. right. right. left. apply list_elem_of_here.
Qed.

(** X4.  A spoken entry with a resolved speaker and a non-empty sentence
    gives exactly one sentence, at its place among the spoken dialogue: for a
    question the speaker, "bertanya", the target after "kepada" when the
    target resolves, and the quoted sentence; likewise "menjawab" for an
    answer; for the audience type the speaker, "berbicara kepada audiens" and
    the quoted sentence. *)
Theorem X4_spoken_dialogue_line
    (st : AppState) (sd : SpokenDialogue) (speaker : Character)
    (before after : list SpokenDialogue) :
  spokenDialogue (store st) = before ++ sd :: after ->
  findCharacter (savedCharacters (store st)) (sd_charId sd) = Some speaker ->
  sd_sentence sd <> EmptyString ->
  spokenSentences (store st) (spokenDialogue (store st)) =
    spokenSentences (store st) before ++
    spokenSentences (store st) [sd] ++
    spokenSentences (store st) after /\
  length (spokenSentences (store st) [sd]) = 1 /\
  (sd_type sd = "Ask a question" ->
     spokenSentences (store st) [sd] = [addressedLine (store st) "bertanya" speaker sd]) /\
  (sd_type sd = "Give an answer" ->
     spokenSentences (store st) [sd] = [addressedLine (store st) "menjawab" speaker sd]) /\
  (sd_type sd = "Berbicara ke Audiens" ->
     spokenSentences (store st) [sd] =
       [char_name speaker +:+ " berbicara kepada audiens: " +:+
        dquote +:+ sd_sentence sd +:+ dquote]).
Proof.
  intros Hdialogue Hspeaker Hsentence. apply truthy_true in Hsentence.
  split; [|split; [|split; [|split]]].
  - rewrite Hdialogue. unfold spokenSentences.
    rewrite (fold_left_pushes_app _ (pushSpokenDialogue_pushes (store st))).
    f_equal. cbn [fold_left].
    by rewrite (fold_left_pushes _ (pushSpokenDialogue_pushes (store st)) after).
  - unfold spokenSentences, pushSpokenDialogue. cbn [fold_left].
    by rewrite Hspeaker, Hsentence.
  - intros Htype. unfold spokenSentences, pushSpokenDialogue, addressedLine, push.
    cbn [fold_left]. rewrite Hspeaker, Hsentence, Htype.
    change (String.eqb "Ask a question" "Ask a question") with true. cbv iota.
    destruct (findCharacter _ (sd_targetCharId sd));
      cbn [app]; by rewrite ?append_assoc.
  - intros Htype. unfold spokenSentences, pushSpokenDialogue, addressedLine, push.
    cbn [fold_left]. rewrite Hspeaker, Hsentence, Htype.
    change (String.eqb "Give an answer" "Ask a question") with false.
    change (String.eqb "Give an answer" "Give an answer") with true. cbv iota.
    destruct (findCharacter _ (sd_targetCharId sd));
      cbn [app]; by rewrite ?append_assoc.
  - intros Htype. unfold spokenSentences, pushSpokenDialogue, push.
    cbn [fold_left]. rewrite Hspeaker, Hsentence, Htype.
    cbn [app]. by rewrite ?append_assoc.
Qed.

End ComposerExtras.

Lemma mainCharacters_map saved (g : CharacterAction -> CharacterAction) actions :
  (forall ca, ca_charId (g ca) = ca_charId ca) ->
  (forall ca, ca_isMain (g ca) = ca_isMain ca) ->
  map (fun ca => char_name <$> findCharacter saved (ca_charId ca))
    (List.filter ca_isMain (map g actions)) =
  map (fun ca => char_name <$> findCharacter saved (ca_charId ca))
    (List.filter ca_isMain actions).
Proof.
  intros Hid Hmain. induction actions as [|ca actions IH]; [reflexivity|].
  cbn [map List.filter]. rewrite Hmain. destruct (ca_isMain ca); [|exact IH].
  cbn [map]. by rewrite Hid, IH.
Qed.

Lemma fold_pushDialogueLine_nonempty character lines prompt :
  fold_left (pushDialogueLine character)
    (List.filter (fun line => truthy (line_sentence line)) lines) prompt =
  fold_left (pushDialogueLine character) lines prompt.
Proof.
  revert prompt. induction lines as [|line lines IH]; intros prompt; [reflexivity|].
  cbn [List.filter fold_left].
  destruct (truthy (line_sentence line)) eqn:Hsentence; [apply IH|].
  rewrite IH. f_equal. unfold pushDialogueLine. by rewrite Hsentence.
Qed.

Section ComposerExtras2.
Context `{JSStringOps}.

Lemma fold_pushCharacterAction_nonempty s actions prompt :
  fold_left (pushCharacterAction s)
    (map (fun ca =>
            {| ca_charId := ca_charId ca;
               ca_action := ca_action ca;
               ca_isMain := ca_isMain ca;
               ca_dialogueLines :=
                 List.filter (fun line => truthy (line_sentence line))
                   (ca_dialogueLines ca) |}) actions) prompt =
  fold_left (pushCharacterAction s) actions prompt.
Proof.
  revert prompt. induction actions as [|ca actions IH]; intros prompt; [reflexivity|].
  cbn [map fold_left]. rewrite IH. f_equal.
  unfold pushCharacterAction. cbn [ca_charId ca_action ca_dialogueLines].
  destruct (findCharacter _ _); [|reflexivity].
  apply fold_pushDialogueLine_nonempty.
Qed.

Lemma fold_pushSpokenDialogue_nonempty s dialogue prompt :
  fold_left (pushSpokenDialogue s)
    (List.filter (fun sd => truthy (sd_sentence sd)) dialogue) prompt =
  fold_left (pushSpokenDialogue s) dialogue prompt.
Proof.
  revert prompt. induction dialogue as [|sd dialogue IH]; intros prompt; [reflexivity|].
  cbn [List.filter fold_left].
  destruct (truthy (sd_sentence sd)) eqn:Hsentence; [apply IH|].
  rewrite IH. f_equal. unfold pushSpokenDialogue. rewrite Hsentence.
  by destruct (findCharacter _ _).
Qed.

(** X5.  Embedded dialogue lines and spoken entries with an empty sentence
    contribute nothing: the composition is that of the snapshot without
    them. *)
Theorem X5_empty_sentences_contribute_nothing (st : AppState) :
  compose (withoutEmptySentences st) = compose st.
Proof.
  unfold compose. f_equal.
  unfold promptSentences, pushCharacters, mainCharacters.
  change (savedCharacters (store (withoutEmptySentences st)))
    with (savedCharacters (store st)).
  change (form (withoutEmptySentences st)) with (form st).
  change (spokenDialogue (store (withoutEmptySentences st)))
    with (List.filter (fun sd => truthy (sd_sentence sd)) (spokenDialogue (store st))).
  change (characterActions (store (withoutEmptySentences st)))
    with (map (fun ca =>
                 {| ca_charId := ca_charId ca;
                    ca_action := ca_action ca;
                    ca_isMain := ca_isMain ca;
                    ca_dialogueLines :=
                      List.filter (fun line => truthy (line_sentence line))
                        (ca_dialogueLines ca) |})
              (characterActions (store st))).
  change (pushCharacterAction (store (withoutEmptySentences st)))
    with (pushCharacterAction (store st)).
  change (pushSpokenDialogue (store (withoutEmptySentences st)))
    with (pushSpokenDialogue (store st)).
  change (pushSceneAttributes (store (withoutEmptySentences st)))
    with (pushSceneAttributes (store st)).
  change (pushAdditionalDetails (store (withoutEmptySentences st)))
    with (pushAdditionalDetails (store st)).
  rewrite mainCharacters_map by reflexivity.
  by rewrite fold_pushCharacterAction_nonempty, fold_pushSpokenDialogue_nonempty.
Qed.

(** X6.  Additional details that are set end the composition: the last
    sentence is "Detail tambahan: ", the text as typed (it is not
    lower-cased) and a full stop, and the output string ends with it. *)
Theorem X6_additional_details_end_the_prompt (st : AppState) :
  additionalDetails (store st) <> EmptyString ->
  last (promptSentences st) =
    Some ("Detail tambahan: " +:+ additionalDetails (store st) +:+ ".") /\
  exists before,
    compose st =
      before +:+ ("Detail tambahan: " +:+ additionalDetails (store st) +:+ ".").
Proof.
  intros Hdetails. apply truthy_true in Hdetails.
  assert (Hlast : last (promptSentences st) =
            Some ("Detail tambahan: " +:+ additionalDetails (store st) +:+ ".")).
  { unfold promptSentences, pushAdditionalDetails, push. rewrite Hdetails.
    apply last_snoc. }
  split; [exact Hlast|]. by apply join_last.
Qed.

Lemma pushCharacterAction_expression s s' prompt ca :
  savedCharacters s' = savedCharacters s ->
  expressions s' !! ca_charId ca = expressions s !! ca_charId ca ->
  pushCharacterAction s' prompt ca = pushCharacterAction s prompt ca.
Proof. unfold pushCharacterAction. by intros -> ->. Qed.

(** X7.  An expression is rendered only inside the action sentence of its
    character: setting the expression of a character that has no
    CharacterAction entry leaves the composition as it was. *)
Theorem X7_expression_without_action_is_not_rendered
    (st : AppState) (charId value : string) :
  actionOf (store st) charId = None ->
  compose (setExpressions (<[charId := value]> (expressions (store st))) st) = compose st.
Proof.
  intros Hnone. rewrite actionOf_None in Hnone.
  unfold compose. f_equal. unfold promptSentences.
  set (st' := setExpressions _ st).
  change (pushCharacters st' []) with (pushCharacters st []).
  change (characterActions (store st')) with (characterActions (store st)).
  change (spokenDialogue (store st')) with (spokenDialogue (store st)).
  change (pushSpokenDialogue (store st')) with (pushSpokenDialogue (store st)).
  change (pushSceneAttributes (store st')) with (pushSceneAttributes (store st)).
  change (pushAdditionalDetails (store st')) with (pushAdditionalDetails (store st)).
  do 3 f_equal.
  generalize (pushCharacters st []).
  induction (characterActions (store st)) as [|ca actions IH]; intros prompt;
    [reflexivity|].
  cbn [fold_left].
  rewrite (pushCharacterAction_expression (store st) (store st')).
  - apply IH. intros ca' Hca'. apply Hnone. by right.
  - reflexivity.
  - subst st'. cbn [setExpressions withStore store expressions].
    apply lookup_insert_ne. intros Heq. apply (Hnone ca); [by left|done].
Qed.

Ltac unread_field Hk :=
  repeat (apply not_elem_of_cons in Hk as [? Hk]);
  unfold characterDescription, char_type; cbn [char_details char_name];
  by rewrite !lookup_insert_ne by done.

(** X8.  The introduction of a character shows only the properties the
    composer reads: for a Human another property (the face shape and the
    height of the form among them) changes nothing, nor does one for a
    four-legged animal outside the animal type and the clothing, nor one for
    a two-legged animal such as the nose shape, the face feature and the ear
    feature. *)
Theorem X8_unread_properties_do_not_show
    (a2 : gmap string string) (id name : string) (details : gmap string string)
    (k v : string) :
  (k ∉ humanFields ->
     characterDescription a2
       {| char_id := id; char_name := name; char_details := human (<[k := v]> details) |} =
     characterDescription a2
       {| char_id := id; char_name := name; char_details := human details |}) /\
  (k ∉ animal4Fields ->
     characterDescription a2
       {| char_id := id; char_name := name; char_details := animal4 (<[k := v]> details) |} =
     characterDescription a2
       {| char_id := id; char_name := name; char_details := animal4 details |}) /\
  (k ∉ "age" :: animal2Fields ->
     characterDescription a2
       {| char_id := id; char_name := name; char_details := animal2 (<[k := v]> details) |} =
     characterDescription a2
       {| char_id := id; char_name := name; char_details := animal2 details |}).
Proof.
  split; [|split]; intros Hk.
  - unfold humanFields in Hk. unread_field Hk.
  - unfold animal4Fields in Hk. unread_field Hk.
  - unfold animal2Fields in Hk. unread_field Hk.
Qed.

End ComposerExtras2.

(** * More of the entity store *)

(** ** Saving a character *)

Lemma newCharacterDetails_None (f : FormState) :
  newCharacterDetails f = None <-> characterType f ∉ characterTypes.
Proof.
  unfold newCharacterDetails, characterTypes.
  rewrite !not_elem_of_cons.
  destruct (String.eqb_spec (characterType f) "human");
    [split; [discriminate|tauto]|].
  destruct (String.eqb_spec (characterType f) "animal4");
    [split; [discriminate|tauto]|].
  destruct (String.eqb_spec (characterType f) "animal2");
    [split; [discriminate|tauto]|].
  destruct (String.eqb_spec (characterType f) "fantasy");
    [split; [discriminate|tauto]|].
  split; [|done]. intros _. repeat split; try done. apply not_elem_of_nil.
Qed.

Lemma newCharacterDetails_type (f : FormState) (details : Details) :
  newCharacterDetails f = Some details ->
  forall id name,
    char_type {| char_id := id; char_name := name; char_details := details |} =
    characterType f.
Proof.
  unfold newCharacterDetails, char_type. intros Hdetails id name. cbn [char_details].
  destruct (String.eqb_spec (characterType f) "human");
    [by injection Hdetails as <-|].
  destruct (String.eqb_spec (characterType f) "animal4");
    [by injection Hdetails as <-|].
  destruct (String.eqb_spec (characterType f) "animal2");
    [by injection Hdetails as <-|].
  destruct (String.eqb_spec (characterType f) "fantasy");
    [by injection Hdetails as <-|].
  discriminate.
Qed.

(** X9.  [handleSaveCharacter] saves nothing without a name or without one
    of the four character types: entities and form stay as they are.
    Otherwise it appends exactly one character, with the given id, the name
    and the type of the form and the details the form holds for that type,
    leaves the rest of the entities alone and empties the form. *)
Theorem X9_handleSaveCharacter_outcome (now : string) (st : AppState) :
  (characterName (form st) = EmptyString \/ characterType (form st) ∉ characterTypes ->
     store (handleSaveCharacter now st) = store st /\
     form (handleSaveCharacter now st) = form st) /\
  (characterName (form st) <> EmptyString ->
   characterType (form st) ∈ characterTypes ->
     exists char,
       store (handleSaveCharacter now st) =
         store (setSavedCharacters (savedCharacters (store st) ++ [char]) st) /\
       char_id char = now /\
       char_name char = characterName (form st) /\
       char_type char = characterType (form st) /\
       newCharacterDetails (form st) = Some (char_details char) /\
       form (handleSaveCharacter now st) = emptyForm).
Proof.
  unfold handleSaveCharacter. split.
  - intros [Hname|Htype].
    + by rewrite Hname.
    + apply newCharacterDetails_None in Htype. rewrite Htype.
      by destruct (negb _).
  - intros Hname Htype. apply truthy_true in Hname. rewrite Hname. cbn [negb].
    destruct (newCharacterDetails (form st)) as [details|] eqn:Hdetails.
    + eexists. split; [reflexivity|]. repeat split.
      apply (newCharacterDetails_type _ _ Hdetails).
    + by apply newCharacterDetails_None in Hdetails.
Qed.

Lemma handleSaveCharacter_refused (now : string) (st : AppState) :
  truthy (characterName (form st)) = false \/ newCharacterDetails (form st) = None ->
  store (handleSaveCharacter now st) = store st.
Proof.
  unfold handleSaveCharacter. intros [Hname|Hdetails].
  - by rewrite Hname.
  - rewrite Hdetails. by destruct (negb _).
Qed.

Lemma handleSaveCharacter_form (now : string) (st : AppState) :
  truthy (characterName (form (handleSaveCharacter now st))) = false \/
  newCharacterDetails (form (handleSaveCharacter now st)) = None.
Proof.
  unfold handleSaveCharacter.
  destruct (truthy (characterName (form st))) eqn:Hname; cbn [negb]; [|by left].
  destruct (newCharacterDetails (form st)) eqn:Hdetails; [by left|by right].
Qed.

(** X10.  A second [handleSaveCharacter] right after a first saves nothing
    more: after a save the form is empty, and after a refusal it is the form
    that was refused. *)
Theorem X10_saving_twice_saves_once (now1 now2 : string) (st : AppState) :
  store (handleSaveCharacter now2 (handleSaveCharacter now1 st)) =
  store (handleSaveCharacter now1 st).
Proof. apply handleSaveCharacter_refused, handleSaveCharacter_form. Qed.

(** ** The keyed collection of actions *)

Lemma handleCharacterActionChange_writeAction (charId value : string) (st : AppState) :
  characterActions (store (handleCharacterActionChange charId value st)) =
  writeAction charId value (characterActions (store st)).
Proof.
  cbn [handleCharacterActionChange setCharacterActions withStore store characterActions].
  induction (characterActions (store st)) as [|ca actions IH]; [reflexivity|].
  cbn [writeAction list_find]. cbn. destruct (decide (ca_charId ca = charId)); [reflexivity|].
  rewrite <- IH.
  by destruct (list_find _ actions) as [[i existing]|].
Qed.

Lemma handleToggleMainCharacter_flipMain (charId : string) (st : AppState) :
  characterActions (store (handleToggleMainCharacter charId st)) =
  flipMain charId (characterActions (store st)).
Proof.
  cbn [handleToggleMainCharacter setCharacterActions withStore store characterActions].
  induction (characterActions (store st)) as [|ca actions IH]; [reflexivity|].
  cbn [flipMain list_find]. cbn. destruct (decide (ca_charId ca = charId)); [reflexivity|].
  rewrite <- IH.
  by destruct (list_find _ actions) as [[i existing]|].
Qed.

Lemma writeAction_ids charId value actions :
  map ca_charId (writeAction charId value actions) =
  if decide (charId ∈ map ca_charId actions)
  then map ca_charId actions
  else map ca_charId actions ++ [charId].
Proof.
  induction actions as [|ca actions IH]; [reflexivity|].
  cbn [writeAction map]. destruct (decide (ca_charId ca = charId)) as [Heq|Hne].
  - rewrite decide_True; [reflexivity|]. apply elem_of_cons. by left.
  - cbn [map]. rewrite IH.
    destruct (decide (charId ∈ map ca_charId actions)) as [Hin|Hnotin].
    + rewrite decide_True; [reflexivity|]. by right.
    + rewrite decide_False; [reflexivity|].
      intros [?|?]%elem_of_cons; congruence.
Qed.

Lemma flipMain_ids charId actions :
  map ca_charId (flipMain charId actions) =
  if decide (charId ∈ map ca_charId actions)
  then map ca_charId actions
  else map ca_charId actions ++ [charId].
Proof.
  induction actions as [|ca actions IH]; [reflexivity|].
  cbn [flipMain map]. destruct (decide (ca_charId ca = charId)) as [Heq|Hne].
  - rewrite decide_True; [reflexivity|]. apply elem_of_cons. by left.
  - cbn [map]. rewrite IH.
    destruct (decide (charId ∈ map ca_charId actions)) as [Hin|Hnotin].
    + rewrite decide_True; [reflexivity|]. by right.
    + rewrite decide_False; [reflexivity|].
      intros [?|?]%elem_of_cons; congruence.
Qed.

Lemma NoDup_keyed_update (charId : string) (ids : list string) :
  NoDup ids ->
  NoDup (if decide (charId ∈ ids) then ids else ids ++ [charId]).
Proof.
  intros Hids. destruct (decide (charId ∈ ids)) as [Hin|Hnotin]; [exact Hids|].
  apply NoDup_app. split; [exact Hids|]. split; [|apply NoDup_singleton].
  intros x Hx ->%list_elem_of_singleton. done.
Qed.

Lemma NoDup_ids_filter (P : CharacterAction -> bool) (actions : list CharacterAction) :
  NoDup (map ca_charId actions) -> NoDup (map ca_charId (List.filter P actions)).
Proof.
  induction actions as [|ca actions IH]; [done|].
  cbn [map List.filter]. intros [Hnotin Hrest]%NoDup_cons.
  destruct (P ca); [|by apply IH].
  cbn [map]. apply NoDup_cons. split; [|by apply IH].
  intros Hin. apply Hnotin.
  clear -Hin. induction actions as [|ca' actions IH]; [done|].
  cbn [map List.filter] in *. destruct (P ca'); [|right; by apply IH].
  cbn [map] in Hin. apply elem_of_cons in Hin as [->|Hin]; [by left|right; by apply IH].
Qed.

(** The two invariants of the entities. *)
Lemma handle_invariants (st : AppState) (e : Event) :
  committedNames (store st) /\ keyedActions (store st) ->
  committedNames (store (handle st e)) /\ keyedActions (store (handle st e)).
Proof.
  intros [Hnames Hkeyed]. destruct e; cbn [handle].
  - done.
  - split; [by apply handleSaveCharacter_committedNames|].
    unfold keyedActions, handleSaveCharacter.
    destruct (negb _); [exact Hkeyed|].
    by destruct (newCharacterDetails _).
  - split; [by destruct checked|].
    unfold keyedActions. destruct checked; [exact Hkeyed|].
    cbn [selectedCharactersForActions_onChange setCharacterActions
         setSelectedCharactersForActions withStore store characterActions].
    by apply NoDup_ids_filter.
  - split; [exact Hnames|]. unfold keyedActions.
    rewrite handleCharacterActionChange_writeAction, writeAction_ids.
    by apply NoDup_keyed_update.
  - split; [exact Hnames|]. unfold keyedActions.
    rewrite handleToggleMainCharacter_flipMain, flipMain_ids.
    by apply NoDup_keyed_update.
  - done.
  - done.
  - done.
  - unfold handleSpokenDialogueChange.
    by destruct (spokenDialogue (store st) !! index).
  - done.
  - split; [apply Forall_nil_2|apply NoDup_nil_2].
Qed.

(** X11.  In every state a run of the handlers reaches from the initial
    state, each saved character has a non-empty name and no two
    CharacterAction entries belong to the same character. *)
Theorem X11_session_invariants (events : list Event) :
  committedNames (store (session events)) /\ keyedActions (store (session events)).
Proof.
  unfold session.
  assert (Hinit : committedNames (store initialState) /\ keyedActions (store initialState)).
  { split; [apply Forall_nil_2|apply NoDup_nil_2]. }
  revert Hinit. generalize initialState.
  induction events as [|e events IH]; intros st Hst; [exact Hst|].
  cbn [fold_left]. apply IH. by apply handle_invariants.
Qed.

Lemma writeAction_twice charId v1 v2 actions :
  writeAction charId v2 (writeAction charId v1 actions) = writeAction charId v2 actions.
Proof.
  induction actions as [|ca actions IH]; cbn [writeAction].
  - by rewrite decide_True.
  - destruct (decide (ca_charId ca = charId)) as [Heq|Hne]; cbn [writeAction ca_charId].
    + by rewrite decide_True.
    + rewrite decide_False by done. by rewrite IH.
Qed.

Lemma handleCharacterActionChange_overwrites (charId v1 v2 : string) (st : AppState) :
  store (handleCharacterActionChange charId v2 (handleCharacterActionChange charId v1 st)) =
  store (handleCharacterActionChange charId v2 st).
Proof.
  assert (Hactions :
    characterActions
      (store (handleCharacterActionChange charId v2
                (handleCharacterActionChange charId v1 st))) =
    characterActions (store (handleCharacterActionChange charId v2 st))).
  { rewrite (handleCharacterActionChange_writeAction charId v2
               (handleCharacterActionChange charId v1 st)).
    rewrite (handleCharacterActionChange_writeAction charId v1 st).
    rewrite (handleCharacterActionChange_writeAction charId v2 st).
    apply writeAction_twice. }
  revert Hactions.
  cbn [handleCharacterActionChange setCharacterActions withStore store characterActions
       savedCharacters selectedCharactersForActions expressions location timeOfDay
       cameraMotion lighting selectedVisualStyles videoMood soundMusic spokenDialogue
       additionalDetails].
  by intros ->.
Qed.

(** X12.  The last action written for a character wins: writing one value
    and then another leaves the state that writing the second alone gives,
    and writing the same value twice is writing it once. *)
Theorem X12_last_action_written_wins (charId v1 v2 : string) (st : AppState) :
  store (handleCharacterActionChange charId v2 (handleCharacterActionChange charId v1 st)) =
    store (handleCharacterActionChange charId v2 st) /\
  form (handleCharacterActionChange charId v2 (handleCharacterActionChange charId v1 st)) =
    form st /\
  ui (handleCharacterActionChange charId v2 (handleCharacterActionChange charId v1 st)) =
    ui st.
Proof.
  split; [apply handleCharacterActionChange_overwrites|split; reflexivity].
Qed.

Lemma find_writeAction_other charId value other actions :
  other <> charId ->
  snd <$> list_find (fun action => ca_charId action = other)
            (writeAction charId value actions) =
  snd <$> list_find (fun action => ca_charId action = other) actions.
Proof.
  intros Hother. induction actions as [|ca actions IH]; cbn [writeAction].
  - cbn. by rewrite decide_False by done.
  - destruct (decide (ca_charId ca = charId)) as [Heq|Hne].
    + cbn. rewrite !decide_False by congruence. reflexivity.
    + cbn. destruct (decide (ca_charId ca = other)); [reflexivity|].
      rewrite <- !option_fmap_compose. exact IH.
Qed.

Lemma find_writeAction_same charId value actions :
  snd <$> list_find (fun action => ca_charId action = charId)
            (writeAction charId value actions) =
  Some match snd <$> list_find (fun action => ca_charId action = charId) actions with
       | Some ca =>
           {| ca_charId := ca_charId ca; ca_action := value;
              ca_isMain := ca_isMain ca; ca_dialogueLines := ca_dialogueLines ca |}
       | None =>
           {| ca_charId := charId; ca_action := value; ca_isMain := false;
              ca_dialogueLines := [] |}
       end.
Proof.
  induction actions as [|ca actions IH]; cbn [writeAction].
  - cbn. by rewrite decide_True.
  - destruct (decide (ca_charId ca = charId)) as [Heq|Hne].
    + cbn. by rewrite !decide_True.
    + cbn. rewrite !decide_False by done.
      rewrite <- !option_fmap_compose. exact IH.
Qed.

(** X13.  [handleCharacterActionChange] touches the action of one character
    only: the entry of every other character reads as before; the entry of
    the character keeps its main mark and its dialogue lines and has the new
    action, or is created with no main mark and no line when there was
    none. *)
Theorem X13_action_change_frame (charId value : string) (st : AppState) :
  (forall other, other <> charId ->
     actionOf (store (handleCharacterActionChange charId value st)) other =
     actionOf (store st) other) /\
  actionOf (store (handleCharacterActionChange charId value st)) charId =
    Some match actionOf (store st) charId with
         | Some ca =>
             {| ca_charId := ca_charId ca; ca_action := value;
                ca_isMain := ca_isMain ca; ca_dialogueLines := ca_dialogueLines ca |}
         | None =>
             {| ca_charId := charId; ca_action := value; ca_isMain := false;
                ca_dialogueLines := [] |}
         end.
Proof.
  unfold actionOf. rewrite handleCharacterActionChange_writeAction. split.
  - intros other Hother. by apply find_writeAction_other.
  - apply find_writeAction_same.
Qed.

Lemma flipMain_twice charId actions :
  charId ∈ map ca_charId actions ->
  flipMain charId (flipMain charId actions) = actions.
Proof.
  induction actions as [|ca actions IH]; [by intros ?%elem_of_nil|].
  cbn [map flipMain]. intros Hin.
  destruct (decide (ca_charId ca = charId)) as [Heq|Hne]; cbn [flipMain ca_charId].
  - rewrite decide_True by done. cbn [ca_action ca_isMain ca_dialogueLines].
    rewrite negb_involutive. by destruct ca.
  - rewrite decide_False by done. f_equal. apply IH.
    apply elem_of_cons in Hin as [?|?]; [congruence|done].
Qed.

Lemma find_flipMain_same charId actions :
  snd <$> list_find (fun action => ca_charId action = charId) (flipMain charId actions) =
  Some match snd <$> list_find (fun action => ca_charId action = charId) actions with
       | Some ca =>
           {| ca_charId := ca_charId ca; ca_action := ca_action ca;
              ca_isMain := negb (ca_isMain ca);
              ca_dialogueLines := ca_dialogueLines ca |}
       | None =>
           {| ca_charId := charId; ca_action := EmptyString; ca_isMain := true;
              ca_dialogueLines := [] |}
       end.
Proof.
  induction actions as [|ca actions IH]; cbn [flipMain].
  - cbn. by rewrite decide_True.
  - destruct (decide (ca_charId ca = charId)) as [Heq|Hne].
    + cbn. by rewrite !decide_True.
    + cbn. rewrite !decide_False by done.
      rewrite <- !option_fmap_compose. exact IH.
Qed.

Lemma actionOf_ids s charId :
  is_Some (actionOf s charId) <-> charId ∈ map ca_charId (characterActions s).
Proof.
  unfold actionOf. rewrite fmap_is_Some.
  induction (characterActions s) as [|ca actions IH].
  - cbn. split; [by intros [? ?]|by intros ?%elem_of_nil].
  - cbn [map]. rewrite elem_of_cons. cbn.
    destruct (decide (ca_charId ca = charId)) as [Heq|Hne].
    + split; [by left|by eexists].
    + rewrite fmap_is_Some, IH. split; [by right|]. intros [?|?]; [congruence|done].
Qed.

(** X14.  [handleToggleMainCharacter] flips the main mark of the entry of a
    character and keeps its action and its lines, so that toggling twice
    gives back the actions as they were; for a character without an entry
    it creates one that is marked main and has an empty action. *)
Theorem X14_toggle_main_character (charId : string) (st : AppState) :
  actionOf (store (handleToggleMainCharacter charId st)) charId =
    Some match actionOf (store st) charId with
         | Some ca =>
             {| ca_charId := ca_charId ca; ca_action := ca_action ca;
                ca_isMain := negb (ca_isMain ca);
                ca_dialogueLines := ca_dialogueLines ca |}
         | None =>
             {| ca_charId := charId; ca_action := EmptyString; ca_isMain := true;
                ca_dialogueLines := [] |}
         end /\
  (is_Some (actionOf (store st) charId) ->
     characterActions
       (store (handleToggleMainCharacter charId (handleToggleMainCharacter charId st))) =
     characterActions (store st)).
Proof.
  split.
  - unfold actionOf. rewrite handleToggleMainCharacter_flipMain. apply find_flipMain_same.
  - intros Hsome%actionOf_ids.
    rewrite !handleToggleMainCharacter_flipMain. by apply flipMain_twice.
Qed.

(** ** Spoken dialogue *)

(** X15.  [handleSpokenDialogueChange] sets one property of one entry: the
    entry at the index has the value under the field and its other
    properties as before, every other entry and the length of the list are
    unchanged, and an index past the end changes nothing at all. *)
Theorem X15_spoken_dialogue_change
    (index : nat) (field : SpokenField) (value : string) (st : AppState) :
  length (spokenDialogue (store (handleSpokenDialogueChange index field value st))) =
    length (spokenDialogue (store st)) /\
  (forall j, j <> index ->
     spokenDialogue (store (handleSpokenDialogueChange index field value st)) !! j =
     spokenDialogue (store st) !! j) /\
  (forall entry, spokenDialogue (store st) !! index = Some entry ->
     spokenDialogue (store (handleSpokenDialogueChange index field value st)) !! index =
     Some (setSpokenField field value entry)) /\
  (length (spokenDialogue (store st)) <= index ->
     handleSpokenDialogueChange index field value st = st).
Proof.
  unfold handleSpokenDialogueChange.
  destruct (spokenDialogue (store st) !! index) as [entry|] eqn:Hentry.
  - cbn [setSpokenDialogue withStore store spokenDialogue].
    split; [apply length_insert|]. split; [|split].
    + intros j Hj. by apply list_lookup_insert_ne.
    + intros entry' [= <-]. apply list_lookup_insert_eq. by eapply lookup_lt_Some.
    + intros Hlen. apply lookup_lt_Some in Hentry. lia.
  - repeat split; done.
Qed.

(** X16.  [handleRemoveSpokenDialogue] takes out exactly the entry at the
    index: the entries before it keep their place, the ones after it move
    up by one, an index past the end removes nothing; removing the entry
    that [handleAddSpokenDialogue] has just added gives back the list. *)
Theorem X16_spoken_dialogue_add_remove (index : nat) (st : AppState) :
  (forall j, j < index ->
     spokenDialogue (store (handleRemoveSpokenDialogue index st)) !! j =
     spokenDialogue (store st) !! j) /\
  (forall j, index <= j ->
     spokenDialogue (store (handleRemoveSpokenDialogue index st)) !! j =
     spokenDialogue (store st) !! S j) /\
  (length (spokenDialogue (store st)) <= index ->
     spokenDialogue (store (handleRemoveSpokenDialogue index st)) =
     spokenDialogue (store st)) /\
  spokenDialogue
    (store (handleRemoveSpokenDialogue (length (spokenDialogue (store st)))
              (handleAddSpokenDialogue st))) =
  spokenDialogue (store st).
Proof.
  cbn [handleRemoveSpokenDialogue handleAddSpokenDialogue setSpokenDialogue
       withStore store spokenDialogue].
  split; [|split; [|split]].
  - intros j Hj. by apply list_lookup_delete_lt.
  - intros j Hj. by apply list_lookup_delete_ge.
  - intros Hlen. apply list_eq. intros j.
    destruct (decide (j < index)).
    + by apply list_lookup_delete_lt.
    + rewrite list_lookup_delete_ge by lia.
      rewrite !lookup_ge_None_2 by lia. reflexivity.
  - generalize (spokenDialogue (store st)). intros dialogue.
    induction dialogue as [|sd dialogue IH]; [reflexivity|].
    cbn. f_equal. exact IH.
Qed.

(** ** Drafts *)

(** X17.  Loading the snapshot [savePromptDraft] writes for a state gives
    that state back, form, entities and the two prompts, whatever the state
    it is loaded into; the loading flags are those of the state loaded
    into. *)
Theorem X17_draft_round_trip (saved current : AppState) :
  form (loadPromptDraft (promptData saved) current) = form saved /\
  store (loadPromptDraft (promptData saved) current) = store saved /\
  indonesianPrompt (ui (loadPromptDraft (promptData saved) current)) =
    indonesianPrompt (ui saved) /\
  englishPrompt (ui (loadPromptDraft (promptData saved) current)) =
    englishPrompt (ui saved) /\
  isLoadingPrompt (ui (loadPromptDraft (promptData saved) current)) =
    isLoadingPrompt (ui current) /\
  isLoadingActionSuggestion (ui (loadPromptDraft (promptData saved) current)) =
    isLoadingActionSuggestion (ui current) /\
  isLoadingDialogueSuggestion (ui (loadPromptDraft (promptData saved) current)) =
    isLoadingDialogueSuggestion (ui current).
Proof.
  destruct saved as [[] [] []]. repeat split.
Qed.

(** * The other clients of the generation service *)

Lemma stripTrailingQuote_quoted (s : string) : stripTrailingQuote (s +:+ dquote) = s.
Proof.
  induction s as [|c s IH]; [reflexivity|].
  change (String c s +:+ dquote) with (String c (s +:+ dquote)).
  cbn [stripTrailingQuote]. rewrite IH.
  destruct s; reflexivity.
Qed.

Lemma stripTrailingQuote_unquoted (s : string) :
  (forall t, s <> t +:+ dquote) -> stripTrailingQuote s = s.
Proof.
  induction s as [|c s IH]; [reflexivity|]. intros Hs.
  cbn [stripTrailingQuote]. destruct s as [|c' s].
  - destruct (isQuote c) eqn:Hc; [|reflexivity].
    exfalso. apply (Hs EmptyString). unfold isQuote in Hc.
    apply Nat.eqb_eq in Hc. unfold dquote. cbn. f_equal.
    by rewrite <- (ascii_nat_embedding c), Hc.
  - f_equal. apply IH. intros t Ht. apply (Hs (String c t)).
    change (String c t +:+ dquote) with (String c (t +:+ dquote)). by rewrite Ht.
Qed.

(** X18.  The quote stripping of a suggested sentence removes one pair of
    enclosing double quotes: a sentence between double quotes gives the
    sentence, whatever it contains; a sentence that neither starts nor ends
    with a double quote is left as it is. *)
Theorem X18_stripQuotes (s : string) :
  stripQuotes (dquote +:+ s +:+ dquote) = s /\
  ((forall t, s <> dquote +:+ t) -> (forall t, s <> t +:+ dquote) -> stripQuotes s = s).
Proof.
  split.
  - change (dquote +:+ s +:+ dquote) with (String (ascii_of_nat 34) (s +:+ dquote)).
    cbn [stripQuotes]. change (isQuote (ascii_of_nat 34)) with true. cbv iota.
    apply stripTrailingQuote_quoted.
  - intros Hstart Hend. destruct s as [|c s]; [reflexivity|].
    cbn [stripQuotes]. destruct (isQuote c) eqn:Hc.
    + exfalso. apply (Hstart s). unfold isQuote in Hc.
      apply Nat.eqb_eq in Hc. unfold dquote.
      change (String (ascii_of_nat 34) EmptyString +:+ s) with (String (ascii_of_nat 34) s).
      f_equal. by rewrite <- (ascii_nat_embedding c), Hc.
    + by apply stripTrailingQuote_unquoted.
Qed.

Section OtherClients.
Context `{JSStringOps}.

(** X19.  For an entry with a resolved speaker and a type,
    [suggestDialogueSentence] writes the trimmed result without its
    enclosing quotes into the sentence of that entry when the response has
    the success status and shape, and leaves the entities as they were on
    any other outcome; the form is untouched and the loading flag of the
    index ends [false]. *)
Theorem X19_suggestDialogueSentence_write_back
    (st : AppState) (dialogueIndex : nat) (dialogue : SpokenDialogue)
    (character : Character) (outcome : FetchOutcome) :
  spokenDialogue (store st) !! dialogueIndex = Some dialogue ->
  findCharacter (savedCharacters (store st)) (sd_charId dialogue) = Some character ->
  sd_type dialogue <> EmptyString ->
  exists st',
    suggestDialogueSentence dialogueIndex outcome st = requestInFlight st' character /\
    (forall t, serviceResult outcome = Some t ->
       store st' =
         store (setSpokenDialogue
                  (<[dialogueIndex :=
                       setSpokenField field_sentence (stripQuotes (trim t)) dialogue]>
                     (spokenDialogue (store st))) st)) /\
    (serviceResult outcome = None -> store st' = store st) /\
    form st' = form st /\
    isLoadingDialogueSuggestion (ui st') =
      <[dialogueIndex := false]> (isLoadingDialogueSuggestion (ui st)) /\
    isLoadingActionSuggestion (ui st') = isLoadingActionSuggestion (ui st).
Proof.
  intros Hdialogue Hcharacter Htype. apply truthy_true in Htype.
  unfold suggestDialogueSentence, suggestDialogueSentence_begin.
  rewrite Hdialogue, Hcharacter, Htype.
  eexists. split; [reflexivity|].
  set (st1 := setIsLoadingDialogueSuggestion _ st).
  assert (Hchange : forall v,
            handleSpokenDialogueChange dialogueIndex field_sentence v st1 =
            setSpokenDialogue
              (<[dialogueIndex := setSpokenField field_sentence v dialogue]>
                 (spokenDialogue (store st))) st1).
  { intros v. unfold handleSpokenDialogueChange.
    change (spokenDialogue (store st1)) with (spokenDialogue (store st)).
    by rewrite Hdialogue. }
  unfold suggestDialogueSentence_try.
  destruct outcome as [|response].
  { repeat split; try done.
    cbn [setIsLoadingDialogueSuggestion showCustomModal withUi ui
         isLoadingDialogueSuggestion]. subst st1.
    cbn [setIsLoadingDialogueSuggestion withUi ui isLoadingDialogueSuggestion].
    apply insert_insert_eq. }
  destruct (ok response) eqn:Hok; cbn [negb].
  2:{ unfold serviceResult. rewrite Hok. repeat split; try done.
      subst st1.
      cbn [setIsLoadingDialogueSuggestion showCustomModal withUi ui
           isLoadingDialogueSuggestion].
      apply insert_insert_eq. }
  rewrite (serviceResult_firstPart _ Hok).
  destruct (responseJson response) as [result|]; cbn [mbind option_bind];
    [|repeat split; try done; subst st1;
      cbn [setIsLoadingDialogueSuggestion showCustomModal withUi ui
           isLoadingDialogueSuggestion]; apply insert_insert_eq].
  destruct (firstPart result) as [part|]; cbn [mbind option_bind];
    [|repeat split; try done; subst st1;
      cbn [setIsLoadingDialogueSuggestion showCustomModal withUi ui
           isLoadingDialogueSuggestion]; apply insert_insert_eq].
  destruct (text part) as [t|];
    [|repeat split; try done; subst st1;
      cbn [setIsLoadingDialogueSuggestion showCustomModal withUi ui
           isLoadingDialogueSuggestion]; apply insert_insert_eq].
  rewrite Hchange. repeat split; try done.
  - by intros t' [= <-].
  - subst st1.
    cbn [setIsLoadingDialogueSuggestion setSpokenDialogue showCustomModal withUi
         withStore ui isLoadingDialogueSuggestion].
    apply insert_insert_eq.
Qed.

(** X20.  [suggestDialogueSentence] sends no request for an entry whose
    speaker is not a saved character or whose type is not selected: it
    reports it, leaves entities and form as they are, and the loading flag
    of the index ends [false]; the same holds for an index past the end
    when no character is saved.  For an index past the end with a saved
    character the call is rejected before anything is reported, and the
    loading flag of the index stays raised. *)
Theorem X20_suggestDialogueSentence_not_sent
    (st : AppState) (dialogueIndex : nat) (outcome : FetchOutcome) :
  (forall dialogue,
     spokenDialogue (store st) !! dialogueIndex = Some dialogue ->
     findCharacter (savedCharacters (store st)) (sd_charId dialogue) = None \/
     sd_type dialogue = EmptyString ->
     exists st',
       suggestDialogueSentence dialogueIndex outcome st = requestNotSent st' /\
       store st' = store st /\ form st' = form st /\
       modalMessage (ui st') = "Pilih karakter dan jenis dialog terlebih dahulu." /\
       isLoadingDialogueSuggestion (ui st') =
         <[dialogueIndex := false]> (isLoadingDialogueSuggestion (ui st))) /\
  (length (spokenDialogue (store st)) <= dialogueIndex ->
   savedCharacters (store st) = [] ->
     exists st',
       suggestDialogueSentence dialogueIndex outcome st = requestNotSent st' /\
       store st' = store st /\ form st' = form st /\
       modalMessage (ui st') = "Pilih karakter dan jenis dialog terlebih dahulu." /\
       isLoadingDialogueSuggestion (ui st') =
         <[dialogueIndex := false]> (isLoadingDialogueSuggestion (ui st))) /\
  (length (spokenDialogue (store st)) <= dialogueIndex ->
   savedCharacters (store st) <> [] ->
     exists st',
       suggestDialogueSentence dialogueIndex outcome st = requestRejected st' /\
       store st' = store st /\ form st' = form st /\
       modalMessage (ui st') = modalMessage (ui st) /\
       isLoadingDialogueSuggestion (ui st') =
         <[dialogueIndex := true]> (isLoadingDialogueSuggestion (ui st))).
Proof.
  unfold suggestDialogueSentence, suggestDialogueSentence_begin.
  assert (Hflag : forall m : gmap nat bool,
            <[dialogueIndex := false]> (<[dialogueIndex := true]> m) =
            <[dialogueIndex := false]> m) by (intros m; apply insert_insert_eq).
  split; [|split].
  - intros dialogue Hdialogue Hguard. rewrite Hdialogue.
    destruct (findCharacter _ _) as [character|].
    + destruct Hguard as [?|Htype]; [done|].
      rewrite Htype. cbn [truthy].
      eexists. split; [reflexivity|]. repeat split. apply Hflag.
    + eexists. split; [reflexivity|]. repeat split. apply Hflag.
  - intros Hlen Hsaved. rewrite (lookup_ge_None_2 _ _ Hlen), Hsaved.
    eexists. split; [reflexivity|]. repeat split. apply Hflag.
  - intros Hlen Hsaved. rewrite (lookup_ge_None_2 _ _ Hlen).
    destruct (savedCharacters (store st)) as [|char saved] eqn:Hsaved'; [done|].
    eexists. split; [reflexivity|]. repeat split.
Qed.

Lemma textMissing_serviceResult (outcome : FetchOutcome) :
  textMissing outcome = true -> serviceResult outcome = None.
Proof.
  destruct outcome as [|response]; [done|]. cbn [textMissing].
  intros [Hok Hpart]%andb_true_iff. rewrite (serviceResult_firstPart _ Hok).
  destruct (responseJson response ≫= firstPart) as [part|]; [|done].
  cbn. by destruct (text part).
Qed.

(** X21.  [maximizeEnglishPrompt] does nothing but report when no prompt has
    been generated.  With a prompt, a response of the success status and
    shape replaces the English prompt by its text as it came (it is not
    trimmed); a first part without text sets it to [undefined] and reports
    nothing; every other outcome leaves it as it was.  Entities, form and
    the Indonesian prompt are never touched, and the loading flag ends
    [false]. *)
Theorem X21_maximizeEnglishPrompt (outcome : FetchOutcome) (st : AppState) :
  (indonesianPrompt (ui st) = EmptyString ->
     maximizeEnglishPrompt outcome st =
       refined (showCustomModal "Generate the Indonesian prompt first." st)) /\
  (indonesianPrompt (ui st) <> EmptyString ->
     (forall t, serviceResult outcome = Some t ->
        exists st', maximizeEnglishPrompt outcome st = refined st' /\
                    englishPrompt (ui st') = t /\
                    modalMessage (ui st') = modalMessage (ui st)) /\
     (textMissing outcome = true ->
        exists st', maximizeEnglishPrompt outcome st = refinedUndefined st' /\
                    modalMessage (ui st') = modalMessage (ui st)) /\
     (serviceResult outcome = None -> textMissing outcome = false ->
        exists st', maximizeEnglishPrompt outcome st = refined st' /\
                    englishPrompt (ui st') = englishPrompt (ui st)) /\
     isLoadingPrompt (ui (refinedState (maximizeEnglishPrompt outcome st))) = false) /\
  store (refinedState (maximizeEnglishPrompt outcome st)) = store st /\
  form (refinedState (maximizeEnglishPrompt outcome st)) = form st /\
  indonesianPrompt (ui (refinedState (maximizeEnglishPrompt outcome st))) =
    indonesianPrompt (ui st).
Proof.
  unfold maximizeEnglishPrompt, maximizeEnglishPrompt_try.
  destruct (truthy (indonesianPrompt (ui st))) eqn:Hprompt; cbn [negb].
  2:{ apply truthy_false in Hprompt. split; [done|]. split; [done|]. done. }
  apply truthy_true in Hprompt. split; [done|].
  destruct outcome as [|response].
  { split; [|done]. intros _. split; [done|]. split; [done|]. split; [|done].
    intros _ _. by eexists. }
  cbn [textMissing].
  destruct (ok response) eqn:Hok; cbn [negb andb].
  2:{ unfold serviceResult. rewrite Hok.
      split; [|done]. intros _. split; [done|]. split; [done|]. split; [|done].
      intros _ _. by eexists. }
  rewrite (serviceResult_firstPart _ Hok).
  destruct (responseJson response) as [result|]; cbn [mbind option_bind].
  2:{ split; [|done]. intros _. split; [done|]. split; [done|]. split; [|done].
      intros _ _. by eexists. }
  destruct (firstPart result) as [part|]; cbn [mbind option_bind].
  2:{ split; [|done]. intros _. split; [done|]. split; [done|]. split; [|done].
      intros _ _. by eexists. }
  destruct (text part) as [t|].
  - split; [|done]. intros _. split; [|split; [done|split; [done|done]]].
    intros t' [= <-]. by eexists.
  - split; [|done]. intros _. split; [done|]. split; [|split; [done|done]].
    intros _. by eexists.
Qed.

End OtherClients.

(** * The action suggestion, further *)

Lemma handleCharacterActionChange_store (charId value : string) (st1 st2 : AppState) :
  store st1 = store st2 ->
  store (handleCharacterActionChange charId value st1) =
  store (handleCharacterActionChange charId value st2).
Proof.
  cbn [handleCharacterActionChange setCharacterActions withStore store].
  by intros ->.
Qed.

Section ActionSuggestionExtras.
Context `{JSStringOps}.

(** X22.  [suggestCharacterAction] for an id that is no saved character
    sends no request: it reports that the character was not found, leaves
    entities and form as they are, and the loading flag of the id ends
    [false]. *)
Theorem X22_suggestCharacterAction_unknown_character
    (st : AppState) (charId : string) (outcome : FetchOutcome) :
  findCharacter (savedCharacters (store st)) charId = None ->
  store (suggestCharacterAction charId outcome st) = store st /\
  form (suggestCharacterAction charId outcome st) = form st /\
  modalMessage (ui (suggestCharacterAction charId outcome st)) =
    "Karakter tidak ditemukan." /\
  isLoadingActionSuggestion (ui (suggestCharacterAction charId outcome st)) =
    <[charId := false]> (isLoadingActionSuggestion (ui st)).
Proof.
  intros Hnone. unfold suggestCharacterAction, suggestCharacterAction_begin.
  rewrite Hnone. repeat split.
  cbn [setIsLoadingActionSuggestion showCustomModal withUi ui isLoadingActionSuggestion].
  apply insert_insert_eq.
Qed.

(** X23.  Of two suggestions for the same character, the one that settles
    last decides: when it succeeds, the entities are those it would leave
    had the earlier one never settled, whatever the earlier one brought; and
    a suggestion that settles overwrites an action typed while it was in
    flight. *)
Theorem X23_last_settled_suggestion_wins
    (st : AppState) (charId : string) (character : Character)
    (earlier later : FetchOutcome) (t typed : string) :
  serviceResult later = Some t ->
  store (suggestCharacterAction_settle charId character later
           (suggestCharacterAction_settle charId character earlier st)) =
    store (suggestCharacterAction_settle charId character later st) /\
  store (suggestCharacterAction_settle charId character later
           (handleCharacterActionChange charId typed st)) =
    store (suggestCharacterAction_settle charId character later st).
Proof.
  intros Hlater. split.
  - rewrite (suggestCharacterAction_settle_store charId character later
               (suggestCharacterAction_settle charId character earlier st)).
    rewrite (suggestCharacterAction_settle_store charId character later st), Hlater.
    pose proof (suggestCharacterAction_settle_store charId character earlier st)
      as Hearlier.
    destruct (serviceResult earlier) as [t1|].
    + rewrite (handleCharacterActionChange_store _ _ _ _ Hearlier).
      apply handleCharacterActionChange_overwrites.
    + by apply handleCharacterActionChange_store.
  - rewrite (suggestCharacterAction_settle_store charId character later
               (handleCharacterActionChange charId typed st)).
    rewrite (suggestCharacterAction_settle_store charId character later st), Hlater.
    apply handleCharacterActionChange_overwrites.
Qed.

End ActionSuggestionExtras.

(** * Visual styles *)

Lemma toggleStyle_NoDup (style : string) (prevStyles : list string) :
  NoDup prevStyles -> NoDup (toggleStyle style prevStyles).
Proof.
  intros Hprev. unfold toggleStyle. destruct (existsb _ _) eqn:Hincludes.
  - clear Hincludes. induction Hprev as [|s styles Hnotin Hprev IH]; [constructor|].
    cbn [List.filter]. destruct (negb _); [|exact IH].
    constructor; [|exact IH]. intros Hin. apply Hnotin.
    apply list_elem_of_In, filter_In in Hin as [Hin _]. by apply list_elem_of_In.
  - apply NoDup_app. split; [exact Hprev|]. split; [|apply NoDup_singleton].
    intros s Hs ->%list_elem_of_singleton.
    assert (existsb (String.eqb style) prevStyles = true) as Htrue; [|congruence].
    apply existsb_exists. exists style.
    split; [by apply list_elem_of_In|apply String.eqb_refl].
Qed.

Lemma handle_styles (st : AppState) (e : Event) :
  NoDup (selectedVisualStyles (store st)) ->
  NoDup (selectedVisualStyles (store (handle st e))).
Proof.
  intros Hstyles. destruct e; cbn [handle]; try exact Hstyles.
  - unfold handleSaveCharacter. destruct (negb _); [exact Hstyles|].
    by destruct (newCharacterDetails _).
  - by destruct checked.
  - by apply toggleStyle_NoDup.
  - unfold handleSpokenDialogueChange.
    by destruct (spokenDialogue (store st) !! index).
  - apply NoDup_nil_2.
Qed.

(** X24.  In every state a run of the handlers reaches from the initial
    state no visual style is selected twice, so that the composition names
    each selected style once. *)
Theorem X24_styles_selected_once (events : list Event) :
  NoDup (selectedVisualStyles (store (session events))).
Proof.
  unfold session.
  assert (Hinit : NoDup (selectedVisualStyles (store initialState)))
    by apply NoDup_nil_2.
  revert Hinit. generalize initialState.
  induction events as [|e events IH]; intros st Hst; [exact Hst|].
  cbn [fold_left]. apply IH. by apply handle_styles.
Qed.

(** * Scenarios

    The theorems above, and the composer itself, run on concrete snapshots
    with the ASCII string operations. *)

#[local] Existing Instance asciiOps.

(** C1.  Bruno, a two-legged animal, is saved with the age value of the
    toddler bracket of the age table; the composition of the state that
    [handleSaveCharacter] returns introduces him without the descriptor:
    the source looks the age up under the form hook [animal2Details], which
    saving has just emptied, and not under the saved details. *)
Theorem C1_saved_age_descriptor_is_not_composed :
  (exists details,
     savedCharacters (store bruno_saved) =
       [ {| char_id := "1700000000000"; char_name := "Bruno";
            char_details := animal2 details |} ] /\
     details !! "age" = Some toddler) /\
  In toddler (map value dropdownData.animalAge) /\
  compose bruno_saved = "Bruno adalah seekor hewan bear berjalan dengan dua kaki." /\
  includes (compose bruno_saved) ("(" +:+ toddler +:+ ")") = false.
Proof.
  split; [|split; [|split]].
  - eexists. split; reflexivity.
  - right. left. reflexivity.
  - reflexivity.
  - reflexivity.
Qed.

(** C9.  Two states with the same entity store, Bruno saved, that differ in
    the age select of the character form only: their compositions differ. *)
Theorem C9_same_store_different_composition :
  store bruno_saved_form_edited = store bruno_saved /\
  compose bruno_saved = "Bruno adalah seekor hewan bear berjalan dengan dua kaki." /\
  compose bruno_saved_form_edited =
    "Bruno adalah seekor hewan bear berjalan dengan dua kaki (toddler-style, playful and chubby, short legs)." /\
  compose bruno_saved_form_edited <> compose bruno_saved.
Proof.
  split; [reflexivity|]. split; [reflexivity|]. split; [reflexivity|].
  intros Heq. vm_compute in Heq. discriminate Heq.
Qed.

(** Aria is unchecked for actions: her CharacterAction entry is gone, her
    expression is still mapped, and she is still saved. *)
Example deselected_expression_survives :
  actionOf (store (selectedCharactersForActions_onChange false "1" aria_running)) "1"
    = None /\
  expressions (store (selectedCharactersForActions_onChange false "1" aria_running))
    !! "1" = Some "Happy" /\
  findCharacter
    (savedCharacters (store (selectedCharactersForActions_onChange false "1" aria_running)))
    "1" = Some aria.
Proof. repeat split. Qed.




(** C3 at work: a suggestion for Aria that succeeds with a padded text, and
    one answered with status 500. *)
Lemma C3_write_back_witness :
  findCharacter (savedCharacters (store aria_running)) "1" = Some aria /\
  (exists ca,
     actionOf (store (suggestCharacterAction "1" (okResponse "  melompat  ") aria_running)) "1"
       = Some ca /\
     ca_action ca = "melompat") /\
  store (suggestCharacterAction "1" serverError aria_running) = store aria_running.
Proof.
  split; [reflexivity|]. split.
  - destruct (C3_suggestCharacterAction_write_back aria_running "1" aria
                (okResponse "  melompat  ") eq_refl) as (Hsuccess & _).
    destruct (Hsuccess "  melompat  " eq_refl) as (_ & ca & Hca & Haction).
    exists ca. split; [exact Hca|exact Haction].
  - destruct (C3_suggestCharacterAction_write_back aria_running "1" aria
                serverError eq_refl) as (_ & Hfailure & _).
    exact (Hfailure eq_refl).
Defined.

(** C4 at work: Aria runs and addresses the audience in an embedded line. *)
Lemma C4_audience_line_witness :
  "Halo semuanya" <> EmptyString /\
  compose aria_addresses_audience =
    "Aria adalah seorang manusia female berusia 25 tahun. Aria sedang berlari. " +:+
    "Aria menjawab: " +:+ dquote +:+ "Halo semuanya" +:+ dquote.
Proof.
  split; [discriminate|].
  destruct (C4_audience_line_is_an_answer_line aria_addresses_audience
              {| ca_charId := "1"; ca_action := "berlari"; ca_isMain := false;
                 ca_dialogueLines :=
                   [ {| line_type := "Berbicara ke Audiens";
                        line_sentence := "Halo semuanya";
                        line_targetCharId := None |} ] |}
              aria
              {| line_type := "Berbicara ke Audiens"; line_sentence := "Halo semuanya";
                 line_targetCharId := None |}
              [] [] [] [] eq_refl eq_refl eq_refl)
    as (_ & _ & _ & _ & _ & Hcompose & _).
  - discriminate.
  - reflexivity.
  - rewrite Hcompose. reflexivity.
Defined.

(** C6 at work (Scenario C): of Aria and Budi only Aria is main. *)
Lemma C6_callout_witness :
  committedNames (store aria_main) /\
  head (promptSentences aria_main) = Some "Karakter utama adalah Aria.".
Proof.
  assert (Hnames : committedNames (store aria_main)).
  { repeat constructor; discriminate. }
  split; [exact Hnames|].
  destruct (C6_main_character_callout aria_main Hnames) as (Hcallout & _).
  apply Hcallout. discriminate.
Defined.

(** A main entry and a spoken line that point at no saved character leave
    the composition of Aria's snapshot as it is. *)
Example dangling_entries_are_skipped :
  compose
    (setSpokenDialogue
       [ {| sd_charId := "9"; sd_type := "Ask a question"; sd_sentence := "Siapa?";
            sd_targetCharId := "1" |} ]
       (handleToggleMainCharacter "9" aria_alone)) =
  "Aria adalah seorang manusia female berusia 25 tahun.".
Proof. reflexivity. Qed.


(** C10 at work: Aria's spoken entry has a sentence and no type. *)
Lemma C10_untyped_fragment_witness :
  findCharacter (savedCharacters (store aria_speaks_untyped)) "1" = Some aria /\
  unrecognizedType EmptyString /\
  promptSentences aria_speaks_untyped =
    ["Aria adalah seorang manusia female berusia 25 tahun."; "Aria "] /\
  compose aria_speaks_untyped =
    "Aria adalah seorang manusia female berusia 25 tahun. Aria ".
Proof.
  assert (Htype : unrecognizedType EmptyString).
  { repeat split; discriminate. }
  split; [reflexivity|]. split; [exact Htype|].
  destruct (C10_untyped_spoken_dialogue_fragment aria_speaks_untyped
              {| sd_charId := "1"; sd_type := EmptyString; sd_sentence := "Halo";
                 sd_targetCharId := EmptyString |} aria [] []
              eq_refl eq_refl) as (_ & Hprompt & Hcompose & _).
  - discriminate.
  - exact Htype.
  - split; [exact Hprompt|]. rewrite Hcompose. reflexivity.
Defined.

(** ** The further properties at work *)

(** X1 at work: a stage without characters. *)
Lemma X1_empty_stage_witness :
  savedCharacters (store empty_stage) = [] /\
  promptSentences empty_stage =
    [ "Adegan berlangsung di hutan."; "Gerakan kamera: Perbesar.";
      "Gaya visual video adalah 3d, anime."; "Detail tambahan: Tempo Cepat." ].
Proof.
  split; [reflexivity|].
  rewrite (X1_no_characters_scene_only empty_stage eq_refl). reflexivity.
Defined.

(** X3 at work: "Zoom In" is rendered as "Perbesar". *)
Lemma X3_zoom_in_witness :
  ({| en := "Zoom In"; idn := "Perbesar" |} ∈ dropdownData.cameraMotion) /\
  ("Gerakan kamera: Perbesar." ∈ promptSentences empty_stage).
Proof.
  assert (Hm : {| en := "Zoom In"; idn := "Perbesar" |} ∈ dropdownData.cameraMotion).
  { do 5 apply list_elem_of_further. apply list_elem_of_here. }
  split; [exact Hm|].
  exact (X3_camera_motion_by_label empty_stage _ Hm eq_refl).
Defined.

(** X4 at work (Scenario D): Aria asks Budi. *)
Lemma X4_question_witness :
  findCharacter (savedCharacters (store aria_asks_budi)) "1" = Some aria /\
  spokenSentences (store aria_asks_budi) (spokenDialogue (store aria_asks_budi)) =
    ["Aria bertanya kepada Budi: " +:+ dquote +:+ "Apa kabar?" +:+ dquote].
Proof.
  split; [reflexivity|].
  destruct (X4_spoken_dialogue_line aria_asks_budi
              {| sd_charId := "1"; sd_type := "Ask a question";
                 sd_sentence := "Apa kabar?"; sd_targetCharId := "2" |}
              aria [] [] eq_refl eq_refl) as (Hplace & _ & Hquestion & _).
  - discriminate.
  - rewrite Hplace, (Hquestion eq_refl). reflexivity.
Defined.

(** X6 at work: the additional details of the stage. *)
Lemma X6_additional_details_witness :
  additionalDetails (store empty_stage) <> EmptyString /\
  last (promptSentences empty_stage) = Some "Detail tambahan: Tempo Cepat.".
Proof.
  assert (Hdetails : additionalDetails (store empty_stage) <> EmptyString)
    by discriminate.
  split; [exact Hdetails|].
  exact (proj1 (X6_additional_details_end_the_prompt empty_stage Hdetails)).
Defined.

(** X7 at work: Aria has an expression and no action. *)
Lemma X7_expression_witness :
  actionOf (store aria_alone) "1" = None /\
  compose (setExpressions (<["1" := "Happy"]> (expressions (store aria_alone))) aria_alone) =
    "Aria adalah seorang manusia female berusia 25 tahun.".
Proof.
  split; [reflexivity|].
  rewrite (X7_expression_without_action_is_not_rendered aria_alone "1" "Happy" eq_refl).
  reflexivity.
Defined.

(** X8 at work: the face shape of a Human. *)
Lemma X8_face_shape_witness :
  ("faceShape" ∉ humanFields) /\
  characterDescription ∅
    {| char_id := "1"; char_name := "Aria";
       char_details := human (<["faceShape" := "Oval"]> (<["gender" := "Female"]> ∅)) |} =
  "Aria adalah seorang manusia female".
Proof.
  assert (Hk : "faceShape" ∉ humanFields).
  { unfold humanFields. intros Hin.
    repeat (apply elem_of_cons in Hin as [Hin|Hin]; [discriminate Hin|]).
    by apply elem_of_nil in Hin. }
  split; [exact Hk|].
  rewrite (proj1 (X8_unread_properties_do_not_show ∅ "1" "Aria"
                    (<["gender" := "Female"]> ∅) "faceShape" "Oval") Hk).
  reflexivity.
Defined.

(** X9 at work: Aria's form is saved; the empty form is refused. *)
Lemma X9_save_witness :
  (exists char,
     savedCharacters (store (handleSaveCharacter "1" aria_form)) = [char] /\
     char_name char = "Aria" /\ char_type char = "human") /\
  store (handleSaveCharacter "1" initialState) = store initialState.
Proof.
  split.
  - destruct (proj2 (X9_handleSaveCharacter_outcome "1" aria_form))
      as (char & Hstore & _ & Hname & Htype & _).
    + discriminate.
    + apply list_elem_of_here.
    + exists char. rewrite Hstore. repeat split; [exact Hname|exact Htype].
  - exact (proj1 (proj1 (X9_handleSaveCharacter_outcome "1" initialState)
                    (or_introl eq_refl))).
Defined.

(** X14 at work: Aria's entry is marked and unmarked. *)
Lemma X14_toggle_witness :
  is_Some (actionOf (store aria_running) "1") /\
  characterActions
    (store (handleToggleMainCharacter "1" (handleToggleMainCharacter "1" aria_running))) =
  characterActions (store aria_running).
Proof.
  assert (Hsome : is_Some (actionOf (store aria_running) "1")) by (by eexists).
  split; [exact Hsome|].
  exact (proj2 (X14_toggle_main_character "1" aria_running) Hsome).
Defined.

(** X18 at work: a quoted and an unquoted suggestion. *)
Lemma X18_stripQuotes_witness :
  stripQuotes (dquote +:+ "Hai" +:+ dquote) = "Hai" /\ stripQuotes "Hai" = "Hai".
Proof.
  split; [exact (proj1 (X18_stripQuotes "Hai"))|].
  apply (proj2 (X18_stripQuotes "Hai")).
  - intros t Ht. discriminate Ht.
  - intros t Ht.
    do 3 (destruct t as [|? t]; [discriminate Ht|injection Ht as _ Ht]).
    destruct t; discriminate Ht.
Defined.

(** X19 at work: a quoted suggestion for Aria's question. *)
Lemma X19_dialogue_suggestion_witness :
  spokenDialogue (store aria_asks_budi) !! 0 =
    Some {| sd_charId := "1"; sd_type := "Ask a question";
            sd_sentence := "Apa kabar?"; sd_targetCharId := "2" |} /\
  exists st',
    suggestDialogueSentence 0
      (okResponse (" " +:+ dquote +:+ "Siapa kamu?" +:+ dquote)) aria_asks_budi =
      requestInFlight st' aria /\
    sd_sentence <$> spokenDialogue (store st') !! 0 = Some "Siapa kamu?".
Proof.
  split; [reflexivity|].
  destruct (X19_suggestDialogueSentence_write_back aria_asks_budi 0
              {| sd_charId := "1"; sd_type := "Ask a question";
                 sd_sentence := "Apa kabar?"; sd_targetCharId := "2" |}
              aria (okResponse (" " +:+ dquote +:+ "Siapa kamu?" +:+ dquote))
              eq_refl eq_refl) as (st' & Hrequest & Hsuccess & _).
  - discriminate.
  - exists st'. split; [exact Hrequest|].
    rewrite (Hsuccess _ eq_refl). reflexivity.
Defined.

(** X20 at work: an entry without a type, an index past the end beside a
    saved character, and one with no character saved. *)
Lemma X20_not_sent_witness :
  (exists st',
     suggestDialogueSentence 0 serverError aria_speaks_untyped = requestNotSent st' /\
     store st' = store aria_speaks_untyped) /\
  (exists st',
     suggestDialogueSentence 5 serverError aria_speaks_untyped = requestRejected st' /\
     isLoadingDialogueSuggestion (ui st') !! 5 = Some true) /\
  (exists st',
     suggestDialogueSentence 5 serverError initialState = requestNotSent st' /\
     isLoadingDialogueSuggestion (ui st') !! 5 = Some false).
Proof.
  split; [|split].
  - destruct (proj1 (X20_suggestDialogueSentence_not_sent aria_speaks_untyped 0 serverError)
                {| sd_charId := "1"; sd_type := EmptyString; sd_sentence := "Halo";
                   sd_targetCharId := EmptyString |} eq_refl (or_intror eq_refl))
      as (st' & Hrequest & Hstore & _).
    exists st'. split; [exact Hrequest|exact Hstore].
  - destruct (proj2 (proj2 (X20_suggestDialogueSentence_not_sent
                              aria_speaks_untyped 5 serverError)))
      as (st' & Hrequest & _ & _ & _ & Hflag).
    + cbn. lia.
    + discriminate.
    + exists st'. split; [exact Hrequest|]. rewrite Hflag. reflexivity.
  - destruct (proj1 (proj2 (X20_suggestDialogueSentence_not_sent
                              initialState 5 serverError)))
      as (st' & Hrequest & _ & _ & _ & Hflag).
    + cbn. lia.
    + reflexivity.
    + exists st'. split; [exact Hrequest|]. rewrite Hflag. reflexivity.
Defined.

(** X21 at work: Aria's prompt is refined; without a prompt nothing is sent. *)
Lemma X21_refinement_witness :
  (exists st',
     maximizeEnglishPrompt (okResponse " Aria, a woman of 25. ")
       (generateIndonesianPromptText aria_alone) = refined st' /\
     englishPrompt (ui st') = " Aria, a woman of 25. ") /\
  maximizeEnglishPrompt serverError aria_alone =
    refined (showCustomModal "Generate the Indonesian prompt first." aria_alone).
Proof.
  split.
  - destruct (proj1 (proj2 (X21_maximizeEnglishPrompt
                              (okResponse " Aria, a woman of 25. ")
                              (generateIndonesianPromptText aria_alone))))
      as (Hsuccess & _).
    + discriminate.
    + destruct (Hsuccess _ eq_refl) as (st' & Hrefined & Henglish & _).
      by exists st'.
  - exact (proj1 (X21_maximizeEnglishPrompt serverError aria_alone) eq_refl).
Defined.

(** X22 at work: a suggestion asked for a character that was never saved. *)
Lemma X22_unknown_character_witness :
  findCharacter (savedCharacters (store aria_alone)) "9" = None /\
  store (suggestCharacterAction "9" (okResponse "melompat") aria_alone) =
    store aria_alone.
Proof.
  split; [reflexivity|].
  exact (proj1 (X22_suggestCharacterAction_unknown_character aria_alone "9"
                  (okResponse "melompat") eq_refl)).
Defined.

(** X23 at work: two suggestions for Aria settle one after the other. *)
Lemma X23_last_settled_witness :
  serviceResult (okResponse "melompat") = Some "melompat" /\
  ca_action <$>
    actionOf
      (store (suggestCharacterAction_settle "1" aria (okResponse "melompat")
                (suggestCharacterAction_settle "1" aria (okResponse "menari")
                   aria_running))) "1" =
  Some "melompat".
Proof.
  split; [reflexivity|].
  rewrite (proj1 (X23_last_settled_suggestion_wins aria_running "1" aria
                    (okResponse "menari") (okResponse "melompat") "melompat"
                    EmptyString eq_refl)).
  reflexivity.
Defined.
